(** * librealsense streaming core: [src/camera.cpp]

    A shallow embedding of [rs_camera], [rs_camera::stream_buffer] and
    [rs_camera::subdevice_handle].

    Conventions of the embedding.
    - C++ [int] values are [Z]; enum values ([rs_stream], [rs_format],
      [rs_preset]) and container indices are [nat].
    - [std::vector] and the fixed arrays indexed by [rs_stream] are lists,
      read with [!!] and written with [<[i:=x]>].  An index outside the
      container is undefined behaviour in C++; the embedding reads a default
      and ignores the write there.
    - [std::shared_ptr<stream_buffer>] is an index into a store of buffers
      (field [heap] of the session), so that the buffers reachable from
      [streams] and the ones captured by a subdevice's callback are the same
      objects.
    - A thrown [std::runtime_error] is the outcome [Throw e]; the session the
      caller is left with is the one reached at the [throw].
    - Calls into the transport layer (claiming a subdevice, programming a
      mode, starting and stopping delivery) and the virtual methods of the
      camera model are recorded in a log, in call order; the transport
      itself is taken to succeed.
    - The mutex of a buffer makes the two slot exchanges atomic; both are
      embedded as single steps and the capture thread is an explicit
      schedule of frame arrivals. *)

From stdpp Require Import base list strings.
From Stdlib Require Import ZArith Lia.
From Stdlib.Init Require Import Byte.

Set Default Proof Using "Type".
Local Open Scope Z_scope.

(** ** Data model (declared in [types.h] and [camera.h]) *)

Definition rs_stream := nat.
Definition rs_format := nat.
Definition rs_preset := nat.

(** [rsimpl::stream_request]; value-initialised to all zeroes. *)
Record stream_request := mk_stream_request {
  enabled : bool;
  req_width : Z;
  req_height : Z;
  req_format : rs_format;
  req_fps : Z
}.

Definition stream_request_zero : stream_request :=
  mk_stream_request false 0 0 0%nat 0.

(** [rsimpl::stream_mode]: one stream as delivered by a subdevice mode. *)
Record stream_mode := mk_stream_mode {
  stream : rs_stream;
  sm_width : Z;
  sm_height : Z;
  sm_format : rs_format;
  sm_fps : Z;
  intrinsics_index : Z
}.

Definition stream_mode_zero : stream_mode :=
  mk_stream_mode 0%nat 0 0 0%nat 0 0.

(** A raw frame handed to the capture callback. *)
Definition raw_frame := list byte.

(** [rsimpl::subdevice_mode].  [unpacker] gives, per destination pointer, the
    bytes it stores there; [frame_number_decoder] is a nullable function
    pointer.  Both are already applied to their own mode. *)
Record subdevice_mode := mk_subdevice_mode {
  subdevice : Z;
  sdm_width : Z;
  sdm_height : Z;
  sdm_format : Z;
  sdm_fps : Z;
  sdm_streams : list stream_mode;
  unpacker : raw_frame → list (list byte);
  frame_number_decoder : option (raw_frame → Z)
}.

(** [rsimpl::static_camera_info]. *)
Record static_camera_info := mk_static_camera_info {
  stream_subdevices : list Z;
  presets : list (list stream_request);
  subdevice_modes : list subdevice_mode
}.

(** The [std::runtime_error]s, by throw site: the three messages of this
    file ("streams cannot be reconfigured after having called
    start_capture()", "unsupported stream", "stream not enabled") and the
    failures of the two collaborators that can throw into
    [configure_enabled_streams], [select_mode] and
    [enforce_interstream_constraints]. *)
Inductive exn :=
  | streams_cannot_be_reconfigured
  | unsupported_stream
  | stream_not_enabled
  | no_suitable_mode (subdevice_index : Z)
  | constraint_violation.



Inductive outcome (A : Type) :=
  | Ok (a : A)
  | Throw (e : exn).
Arguments Ok {A} a.
Arguments Throw {A} e.

(** ** stream_buffer *)

(** One slot of the triple buffer: [pixels] and the frame [number]. *)
Record image := mk_image {
  pixels : list byte;
  number : Z
}.

Record stream_buffer := mk_stream_buffer {
  mode : stream_mode;
  front : image;
  middle : image;
  back : image;
  updated : bool
}.

(** A default-constructed buffer, as [std::make_shared<stream_buffer>()]
    leaves it. *)
Definition stream_buffer_new : stream_buffer :=
  mk_stream_buffer stream_mode_zero (mk_image [] 0) (mk_image [] 0)
    (mk_image [] 0) false.

Global Instance stream_buffer_inhabited : Inhabited stream_buffer :=
  populate stream_buffer_new.

(** [std::vector<uint8_t>::resize(n)]: truncate, or pad with zero bytes. *)
Definition resize_pixels (n : nat) (v : list byte) : list byte :=
  take n v ++ replicate (n - length v)%nat x00.

(** A store through a [data()] pointer: the vector keeps its size. *)
Definition overwrite (old written : list byte) : list byte :=
  take (length old) (written ++ drop (length written) old).

(** [rs_camera::stream_buffer::update_image] *)
Definition update_image (b : stream_buffer) : bool * stream_buffer :=
  if updated b
  then (true, mk_stream_buffer (mode b) (middle b) (front b) (back b) false)
  else (false, b).

(** The capture callback, as far as one buffer is concerned: the unpacker's
    store into the back slot, the optional frame number, and the exchange of
    back and middle under the mutex. *)
Definition unpack_into (written : list byte) (b : stream_buffer)
  : stream_buffer :=
  mk_stream_buffer (mode b) (front b) (middle b)
    (mk_image (overwrite (pixels (back b)) written) (number (back b)))
    (updated b).

Definition stamp_number (n : Z) (b : stream_buffer) : stream_buffer :=
  mk_stream_buffer (mode b) (front b) (middle b)
    (mk_image (pixels (back b)) n) (updated b).

Definition publish_back (b : stream_buffer) : stream_buffer :=
  mk_stream_buffer (mode b) (front b) (back b) (middle b) true.

(** The three slots hold pixel vectors of [n] bytes. *)
Definition slots_sized (n : nat) (b : stream_buffer) : Prop :=
  length (pixels (front b)) = n ∧
  length (pixels (middle b)) = n ∧
  length (pixels (back b)) = n.

Definition equal_slots (b : stream_buffer) : Prop :=
  length (pixels (front b)) = length (pixels (middle b)) ∧
  length (pixels (middle b)) = length (pixels (back b)).

(** The operations on a buffer after [set_mode]: the consumer's
    [update_image] and the three producer steps of the callback. *)
Inductive buffer_op :=
  | op_update_image
  | op_unpack (written : list byte)
  | op_stamp (n : Z)
  | op_publish.

Definition run_buffer_op (o : buffer_op) (b : stream_buffer) : stream_buffer :=
  match o with
  | op_update_image => (update_image b).2
  | op_unpack w => unpack_into w b
  | op_stamp n => stamp_number n b
  | op_publish => publish_back b
  end.

Definition run_buffer_ops (os : list buffer_op) (b : stream_buffer)
  : stream_buffer :=
  foldl (λ b o, run_buffer_op o b) b os.

(** The capture callback as one buffer sees it: the bytes the unpacker
    stores through its destination pointer (none when the unpacker leaves
    that destination alone), the frame number when the mode has a decoder,
    then the exchange of back and middle. *)
Definition produce (written : option (list byte)) (n : option Z)
    (b : stream_buffer) : stream_buffer :=
  publish_back
    ((if n is Some k then stamp_number k else id)
       ((if written is Some w then unpack_into w else id) b)).

(** A function on buffers that keeps the mode and the size of the slots. *)
Definition keeps_shape (f : stream_buffer → stream_buffer) : Prop :=
  ∀ b, mode (f b) = mode b ∧ ∀ n, slots_sized n b → slots_sized n (f b).

(** Two buffer stores with the same buffers, up to the contents of the
    slots: same modes, same slot sizes. *)
Definition same_shape (h h' : list stream_buffer) : Prop :=
  length h' = length h ∧
  ∀ j, mode (h' !!! j) = mode (h !!! j) ∧
       ∀ n, slots_sized n (h !!! j) → slots_sized n (h' !!! j).

(** ** subdevice_handle and the session *)

(** [capture_state]: the mode and the buffers, by reference. *)
Record capture_state := mk_capture_state {
  cs_mode : subdevice_mode;
  cs_streams : list nat
}.

(** [rs_camera::subdevice_handle].  [handle] is the claimed subdevice index;
    [streaming] is the transport's side of [start_streaming] and
    [stop_streaming]. *)
Record subdevice_handle := mk_subdevice_handle {
  handle : nat;
  state : option capture_state;
  streaming : bool
}.

(** The transport's streaming flag of a handle, set or cleared. *)
Definition set_streaming (b : bool) (sh : subdevice_handle)
  : subdevice_handle :=
  mk_subdevice_handle (handle sh) (state sh) b.

(** Calls that leave this file, in call order. *)
Inductive hw_event :=
  | ev_claim_subdevice (i : nat)
  | ev_set_mode (i : nat) (w h fmt fps : Z)
  | ev_start_streaming (i : nat)
  | ev_stop_streaming (i : nat)
  | ev_set_stream_intent
  | ev_retrieve_calibration.

Global Instance hw_event_eq_dec : EqDecision hw_event.
Proof. solve_decision. Defined.

Global Instance stream_request_inhabited : Inhabited stream_request :=
  populate stream_request_zero.

(** ** Mode negotiation *)

(** The enabled requests routed to subdevice [i], by stream. *)
Definition routed_requests (info : static_camera_info)
    (reqs : list stream_request) (i : Z) : list (rs_stream * stream_request) :=
  filter (λ p, enabled p.2 = true ∧ stream_subdevices info !!! p.1 = i)
    (imap pair reqs).

(** A stream mode that matches a request in width, height, format and fps. *)
Definition stream_mode_matches (j : rs_stream) (r : stream_request)
    (sm : stream_mode) : bool :=
  bool_decide (stream sm = j) && bool_decide (sm_width sm = req_width r) &&
  bool_decide (sm_height sm = req_height r) &&
  bool_decide (sm_format sm = req_format r) &&
  bool_decide (sm_fps sm = req_fps r).

Definition mode_satisfies (i : Z) (wanted : list (rs_stream * stream_request))
    (m : subdevice_mode) : bool :=
  bool_decide (subdevice m = i) &&
  forallb (λ p, existsb (stream_mode_matches p.1 p.2) (sdm_streams m)) wanted.

(** Modelled from the spec: [static_camera_info::select_mode], which is
    declared in [types.h] and defined outside [camera.cpp].  Section 4.1: the
    first mode of the catalog, in catalog order, whose subdevice index is [i]
    and whose stream modes satisfy every enabled request routed to [i]; a
    subdevice with no enabled request routed to it is skipped (null); one
    with such a request and no qualifying mode is a configuration error. *)
Definition select_mode_spec (info : static_camera_info)
    (reqs : list stream_request) (i : Z) : outcome (option subdevice_mode) :=
  let wanted := routed_requests info reqs i in
  if wanted is [] then Ok None
  else match List.find (mode_satisfies i wanted) (subdevice_modes info) with
       | Some m => Ok (Some m)
       | None => Throw (no_suitable_mode i)
       end.



Section Camera.

(** [rs_intrinsics] is declared in [rs.h], [pose] in [types.h]. *)
Context {rs_intrinsics pose : Type}.

(** [rsimpl::calibration_info] *)
Record calibration_info := mk_calibration_info {
  intrinsics : list rs_intrinsics;
  stream_poses : list pose
}.

(** The data members of [rs_camera] ([camera_info] and [device] are
    constant and live in [camera_model] below), the buffer store and the
    log. *)
Record rs_camera := mk_rs_camera {
  requests : list stream_request;
  streams : list (option nat);
  subdevices : list (option subdevice_handle);
  first_handle : option nat;
  calib : calibration_info;
  is_capturing : bool;
  heap : list stream_buffer;
  hw_log : list hw_event
}.

Definition with_requests (r : list stream_request) (c : rs_camera) :=
  mk_rs_camera r (streams c) (subdevices c) (first_handle c) (calib c)
    (is_capturing c) (heap c) (hw_log c).
Definition with_streams (s : list (option nat)) (c : rs_camera) :=
  mk_rs_camera (requests c) s (subdevices c) (first_handle c) (calib c)
    (is_capturing c) (heap c) (hw_log c).
Definition with_subdevices (s : list (option subdevice_handle))
    (c : rs_camera) :=
  mk_rs_camera (requests c) (streams c) s (first_handle c) (calib c)
    (is_capturing c) (heap c) (hw_log c).
Definition with_first_handle (h : option nat) (c : rs_camera) :=
  mk_rs_camera (requests c) (streams c) (subdevices c) h (calib c)
    (is_capturing c) (heap c) (hw_log c).
Definition with_calib (k : calibration_info) (c : rs_camera) :=
  mk_rs_camera (requests c) (streams c) (subdevices c) (first_handle c) k
    (is_capturing c) (heap c) (hw_log c).
Definition with_is_capturing (b : bool) (c : rs_camera) :=
  mk_rs_camera (requests c) (streams c) (subdevices c) (first_handle c)
    (calib c) b (heap c) (hw_log c).
Definition with_heap (h : list stream_buffer) (c : rs_camera) :=
  mk_rs_camera (requests c) (streams c) (subdevices c) (first_handle c)
    (calib c) (is_capturing c) h (hw_log c).
Definition log_event (e : hw_event) (c : rs_camera) :=
  mk_rs_camera (requests c) (streams c) (subdevices c) (first_handle c)
    (calib c) (is_capturing c) (heap c) (hw_log c ++ [e]).

(** What [camera.cpp] takes from elsewhere: the constant [camera_info],
    [get_image_size] of [image.h], [static_camera_info::select_mode] (a
    null result is [Ok None]), and the virtual methods
    [enforce_interstream_constraints] and [retrieve_calibration] of the
    camera model. *)
Class camera_model := mk_camera_model {
  camera_info : static_camera_info;
  get_image_size : Z → Z → rs_format → nat;
  select_mode : list stream_request → Z → outcome (option subdevice_mode);
  enforce_interstream_constraints :
    list stream_request → outcome (list stream_request);
  retrieve_calibration : rs_camera → calibration_info
}.

Context {M : camera_model}.

Definition mode_size (m : stream_mode) : nat :=
  get_image_size (sm_width m) (sm_height m) (sm_format m).

(** [rs_camera::stream_buffer::set_mode] *)
Definition stream_buffer_set_mode (m : stream_mode) (b : stream_buffer)
  : stream_buffer :=
  let front' :=
    mk_image
      (resize_pixels (get_image_size (sm_width m) (sm_height m) (sm_format m))
         (pixels (front b)))
      0 in
  mk_stream_buffer m front' front' front' false.

(** [rs_camera::rs_camera] *)
Definition max_subdevice : Z :=
  foldl (λ acc m, Z.max acc (subdevice m)) 0 (subdevice_modes camera_info).

Definition RS_STREAM_NUM : nat := length (stream_subdevices camera_info).

Definition rs_camera_new : rs_camera :=
  mk_rs_camera
    (replicate RS_STREAM_NUM stream_request_zero)
    (replicate RS_STREAM_NUM None)
    (replicate (Z.to_nat (max_subdevice + 1)) None)
    None
    (mk_calibration_info [] [])
    false [] [].

(** [rs_camera::enable_stream] *)
Definition enable_stream (s : rs_stream) (w h : Z) (f : rs_format) (fps : Z)
    (c : rs_camera) : rs_camera * outcome unit :=
  if first_handle c is Some _ then (c, Throw streams_cannot_be_reconfigured)
  else if decide (stream_subdevices camera_info !!! s = -1)
  then (c, Throw unsupported_stream)
  else (with_requests (<[s := mk_stream_request true w h f fps]> (requests c)) c,
        Ok ()).

(** [rs_camera::enable_stream_preset] *)
Definition enable_stream_preset (s : rs_stream) (p : rs_preset)
    (c : rs_camera) : rs_camera * outcome unit :=
  if first_handle c is Some _ then (c, Throw streams_cannot_be_reconfigured)
  else if negb (enabled ((presets camera_info !!! s) !!! p))
  then (c, Throw unsupported_stream)
  else (with_requests (<[s := (presets camera_info !!! s) !!! p]> (requests c)) c,
        Ok ()).

(** [subdevice_handle::stop_streaming], and the destructor that calls it *)
Definition stop_streaming (sh : subdevice_handle) (c : rs_camera)
  : subdevice_handle * rs_camera :=
  (set_streaming false sh, log_event (ev_stop_streaming (handle sh)) c).

(** [subdevice_handle::start_streaming]: the callback captures [state]. *)
Definition start_streaming (sh : subdevice_handle) (c : rs_camera)
  : subdevice_handle * rs_camera :=
  (set_streaming true sh, log_event (ev_start_streaming (handle sh)) c).

(** [for(auto & s : subdevices) s.reset();]: every open handle is
    destroyed, which stops its streaming. *)
Definition reset_subdevices (c : rs_camera) : rs_camera :=
  let c1 :=
    foldl (λ c o, if o is Some sh then (stop_streaming sh c).2 else c)
      c (subdevices c) in
  with_subdevices (replicate (length (subdevices c)) None) c1.

(** [for(auto & s : streams) s.reset();] *)
Definition reset_streams (c : rs_camera) : rs_camera :=
  with_streams (replicate (length (streams c)) None) c.

(** The loop over [mode->streams]: one new buffer per stream mode, stored
    in [streams] when the user asked for that stream.  Returns
    [stream_list]. *)
Fixpoint create_buffers (sms : list stream_mode) (c : rs_camera)
  : rs_camera * list nat :=
  match sms with
  | [] => (c, [])
  | sm :: rest =>
      let id := length (heap c) in
      let c1 := with_heap (heap c ++ [stream_buffer_new]) c in
      let c2 :=
        if enabled (requests c1 !!! stream sm)
        then with_streams (<[stream sm := Some id]> (streams c1)) c1
        else c1 in
      let '(c3, ids) := create_buffers rest c2 in
      (c3, id :: ids)
  end.

(** [subdevice_handle::set_mode] on [subdevices[i]] *)
Definition subdevice_handle_set_mode (i : nat) (m : subdevice_mode)
    (stream_list : list nat) (c : rs_camera) : rs_camera :=
  let c1 :=
    log_event
      (ev_set_mode i (sdm_width m) (sdm_height m) (sdm_format m) (sdm_fps m))
      c in
  let c2 :=
    with_subdevices
      (alter (fmap (λ sh, mk_subdevice_handle (handle sh)
                            (Some (mk_capture_state m stream_list))
                            (streaming sh)))
         i (subdevices c1))
      c1 in
  with_heap
    (foldl (λ h p, alter (stream_buffer_set_mode p.1) p.2 h) (heap c2)
       (zip (sdm_streams m) stream_list))
    c2.

(** The body of the loop over subdevices once a mode is selected. *)
Definition open_subdevice (i : nat) (m : subdevice_mode) (c : rs_camera)
  : rs_camera :=
  let c1 :=
    with_subdevices
      (<[i := Some (mk_subdevice_handle i None false)]> (subdevices c))
      (log_event (ev_claim_subdevice i) c) in
  let c2 :=
    if first_handle c1 is Some _ then c1 else with_first_handle (Some i) c1 in
  let '(c3, stream_list) := create_buffers (sdm_streams m) c2 in
  subdevice_handle_set_mode i m stream_list c3.

(** The loop over subdevices; [todo] are the indices still to visit.  A
    [throw] of [select_mode] leaves the loop. *)
Fixpoint configure_loop (todo : list nat) (c : rs_camera)
  : rs_camera * outcome unit :=
  match todo with
  | [] => (c, Ok ())
  | i :: rest =>
      match select_mode (requests c) (Z.of_nat i) with
      | Throw e => (c, Throw e)
      | Ok None => configure_loop rest c
      | Ok (Some m) => configure_loop rest (open_subdevice i m c)
      end
  end.

(** The calibration is missing as long as [calib.intrinsics] is empty. *)
Definition calibration_missing (c : rs_camera) : bool :=
  bool_decide (length (intrinsics (calib c)) = 0%nat).

Definition fetch_calibration (c : rs_camera) : rs_camera :=
  if calibration_missing c && bool_decide (is_Some (first_handle c))
  then with_calib (retrieve_calibration c) (log_event ev_retrieve_calibration c)
  else c.

(** [rs_camera::configure_enabled_streams] *)
Definition configure_enabled_streams (c : rs_camera)
  : rs_camera * outcome unit :=
  let c1 := reset_streams (reset_subdevices c) in
  if first_handle c1 is None then
    match enforce_interstream_constraints (requests c1) with
    | Throw e => (c1, Throw e)
    | Ok reqs =>
        match configure_loop (seq 0 (length (subdevices c1)))
                (with_requests reqs c1) with
        | (c2, Throw e) => (c2, Throw e)
        | (c2, Ok _) => (fetch_calibration c2, Ok ())
        end
    end
  else (fetch_calibration c1, Ok ()).

(** [for(auto & subdevice : subdevices) if (subdevice) subdevice->f();] *)
Fixpoint for_each_subdevice
    (f : subdevice_handle → rs_camera → subdevice_handle * rs_camera)
    (i : nat) (l : list (option subdevice_handle)) (c : rs_camera)
  : rs_camera :=
  match l with
  | [] => c
  | None :: rest => for_each_subdevice f (S i) rest c
  | Some sh :: rest =>
      let '(sh', c1) := f sh c in
      for_each_subdevice f (S i) rest
        (with_subdevices (<[i := Some sh']> (subdevices c1)) c1)
  end.

(** [rs_camera::start_capture] *)
Definition start_capture (c : rs_camera) : rs_camera * outcome unit :=
  let '(c1, r) :=
    if first_handle c is None then configure_enabled_streams c
    else (c, Ok ()) in
  match r with
  | Throw e => (c1, Throw e)
  | Ok _ =>
      let c2 := log_event ev_set_stream_intent c1 in
      let c3 := for_each_subdevice start_streaming 0%nat (subdevices c2) c2 in
      (with_is_capturing true c3, Ok ())
  end.

(** [rs_camera::stop_capture] *)
Definition stop_capture (c : rs_camera) : rs_camera * outcome unit :=
  let c1 := for_each_subdevice stop_streaming 0%nat (subdevices c) c in
  (with_is_capturing false c1, Ok ()).

(** [rs_camera::get_stream_intrinsics].  [Ok None] stands for the read
    outside [calib.intrinsics]. *)
Definition get_stream_intrinsics (s : rs_stream) (c : rs_camera)
  : outcome (option rs_intrinsics) :=
  match streams c !! s with
  | Some (Some id) =>
      let idx := intrinsics_index (mode (heap c !!! id)) in
      Ok (if decide (0 ≤ idx) then intrinsics (calib c) !! Z.to_nat idx
          else None)
  | _ => Throw stream_not_enabled
  end.

(** ** The capture thread *)

(** The callback registered by [start_streaming], run on one raw frame. *)
Definition capture_callback (s : capture_state) (frame : raw_frame)
    (h : list stream_buffer) : list stream_buffer :=
  let dest := unpacker (cs_mode s) frame in
  let h1 :=
    foldl (λ h p, alter (unpack_into p.2) p.1 h) h (zip (cs_streams s) dest) in
  let h2 :=
    match frame_number_decoder (cs_mode s) with
    | Some decode =>
        foldl (λ h id, alter (stamp_number (decode frame)) id h) h1
          (cs_streams s)
    | None => h1
    end in
  foldl (λ h id, alter publish_back id h) h2 (cs_streams s).

(** A raw frame arrives on subdevice [i]; nothing happens unless its
    handle is open and streaming. *)
Definition deliver (c : rs_camera) (ev : nat * raw_frame) : rs_camera :=
  match subdevices c !! ev.1 with
  | Some (Some sh) =>
      match streaming sh, state sh with
      | true, Some s => with_heap (capture_callback s ev.2 (heap c)) c
      | _, _ => c
      end
  | _ => c
  end.

(** The schedule of the capture thread as seen by the consumer: one batch
    of arrivals before each call of [update_image]; after the last batch
    no frame arrives any more. *)
Definition batch := list (nat * raw_frame).

(** [stream->update_image()] on the buffer [id], after the next batch. *)
Definition poll (id : nat) (env : list batch) (c : rs_camera)
  : bool * rs_camera * list batch :=
  let c1 := foldl deliver c (default [] (head env)) in
  let '(r, b) := update_image (heap c1 !!! id) in
  (r, with_heap (<[id := b]> (heap c1)) c1, tail env).

(** [while(true) if(stream->update_image()) break;] for the stream [s].
    The result is [None] when the loop does not end: the schedule is used
    up and the buffer is not updated.  Otherwise it carries the polls made,
    in order. *)
Fixpoint spin (s : rs_stream) (id : nat) (env : list batch) (c : rs_camera)
  : option (rs_camera * list batch * list (rs_stream * bool)) :=
  let '(r, c1, env1) := poll id env c in
  if r then Some (c1, env1, [(s, true)])
  else
    match env with
    | [] => None
    | _ :: rest =>
        match spin s id rest c1 with
        | Some (c2, env2, log) => Some (c2, env2, (s, false) :: log)
        | None => None
        end
    end.

Definition stream_fps (c : rs_camera) (id : nat) : Z :=
  sm_fps (mode (heap c !!! id)).

(** The first loop of [wait_all_streams]. *)
Definition max_fps (c : rs_camera) : Z :=
  foldl (λ acc o, if o is Some id then Z.max acc (stream_fps c id) else acc)
    0 (streams c).

(** The second loop, from stream [s] on. *)
Fixpoint wait_loop (maxFps : Z) (s : rs_stream) (slots : list (option nat))
    (env : list batch) (c : rs_camera)
  : option (rs_camera * list batch * list (rs_stream * bool)) :=
  match slots with
  | [] => Some (c, env, [])
  | None :: rest => wait_loop maxFps (S s) rest env c
  | Some id :: rest =>
      if decide (stream_fps c id = maxFps) then
        match spin s id env c with
        | None => None
        | Some (c1, env1, log1) =>
            match wait_loop maxFps (S s) rest env1 c1 with
            | None => None
            | Some (c2, env2, log2) => Some (c2, env2, log1 ++ log2)
            end
        end
      else
        let '(r, c1, env1) := poll id env c in
        match wait_loop maxFps (S s) rest env1 c1 with
        | None => None
        | Some (c2, env2, log2) => Some (c2, env2, (s, r) :: log2)
        end
  end.

(** [rs_camera::wait_all_streams], with the polls it made. *)
Definition wait_all_streams (env : list batch) (c : rs_camera)
  : option (rs_camera * list batch * list (rs_stream * bool)) :=
  if negb (is_capturing c) then Some (c, env, [])
  else wait_loop (max_fps c) 0%nat (streams c) env c.

(** ** Sequences of calls *)

Inductive call :=
  | call_enable_stream (s : rs_stream) (w h : Z) (f : rs_format) (fps : Z)
  | call_enable_stream_preset (s : rs_stream) (p : rs_preset)
  | call_configure_enabled_streams
  | call_start_capture
  | call_stop_capture
  | call_wait_all_streams (env : list batch)
  | call_frames (b : batch).

(** One call, whatever it returns or throws; [None] when it is a
    [wait_all_streams] that does not return. *)
Definition run_call (k : call) (c : rs_camera) : option rs_camera :=
  match k with
  | call_enable_stream s w h f fps => Some (enable_stream s w h f fps c).1
  | call_enable_stream_preset s p => Some (enable_stream_preset s p c).1
  | call_configure_enabled_streams => Some (configure_enabled_streams c).1
  | call_start_capture => Some (start_capture c).1
  | call_stop_capture => Some (stop_capture c).1
  | call_wait_all_streams env =>
      if wait_all_streams env c is Some (c1, _, _) then Some c1 else None
  | call_frames b => Some (foldl deliver c b)
  end.

Fixpoint run_calls (ks : list call) (c : rs_camera) : option rs_camera :=
  match ks with
  | [] => Some c
  | k :: rest =>
      match run_call k c with
      | Some c1 => run_calls rest c1
      | None => None
      end
  end.

(** How often [retrieve_calibration] has been called. *)
Definition calibration_fetches (c : rs_camera) : nat :=
  length (filter (λ e, e = ev_retrieve_calibration) (hw_log c)).

Definition open_subdevices (c : rs_camera) : list nat :=
  omap (fmap handle) (subdevices c).

(** [c'] differs from [c] in nothing that the calibration logic reads:
    same calibration, same number of retrievals, and a first handle that
    stays once it is there. *)
Definition quiet (c c' : rs_camera) : Prop :=
  calib c' = calib c ∧
  calibration_fetches c' = calibration_fetches c ∧
  (is_Some (first_handle c) → first_handle c' = first_handle c).


(** [c'] is [c] with another buffer store. *)
Definition heap_only (c c' : rs_camera) : Prop := ∃ h, c' = with_heap h c.


(** The polls of stream [s] in a log, and the two shapes they take:
    polls that fail until one succeeds, and a single poll. *)
Definition polls_of (s : rs_stream) (log : list (rs_stream * bool))
  : list (rs_stream * bool) :=
  filter (λ e, e.1 = s) log.

Definition waited_for (s : rs_stream) (log : list (rs_stream * bool)) : Prop :=
  ∃ k, polls_of s log = replicate k (s, false) ++ [(s, true)].

Definition polled_once (s : rs_stream) (log : list (rs_stream * bool)) : Prop :=
  ∃ r, polls_of s log = [(s, r)].

(** What the log holds for stream [s], given its slot in [streams]. *)
Definition slot_polls (maxFps : Z) (c : rs_camera) (s : rs_stream)
    (slot : option (option nat)) (log : list (rs_stream * bool)) : Prop :=
  match slot with
  | Some (Some id) =>
      if decide (stream_fps c id = maxFps) then waited_for s log
      else polled_once s log
  | _ => polls_of s log = []
  end.

(** The handle, if any, in each subdevice slot. *)
Definition handles (c : rs_camera) : list (option nat) :=
  fmap (M := option) handle <$> subdevices c.




(** Every buffer of the store has its three slots at the size of its
    mode. *)
Definition heap_sized (c : rs_camera) : Prop :=
  Forall (λ b, slots_sized (mode_size (mode b)) b) (heap c).

(** [sm] is negotiated for stream [s]: it is the mode of [s] in the
    subdevice mode that [select_mode] returns for some subdevice. *)
Definition negotiated (c : rs_camera) (s : rs_stream) (sm : stream_mode)
  : Prop :=
  stream sm = s ∧
  ∃ i m, select_mode (requests c) (Z.of_nat i) = Ok (Some m) ∧
         sm ∈ sdm_streams m.

(** Every populated stream slot refers to a buffer of the store, set to a
    mode negotiated for that stream. *)
Definition slots_bound (c : rs_camera) : Prop :=
  ∀ s id, streams c !! s = Some (Some id) →
          ∃ b, heap c !! id = Some b ∧ negotiated c s (mode b).

(** What holds of every session reached from a new one: the buffers are
    sized, the slots are bound, and a populated slot comes with a first
    handle. *)
Definition session_ok (c : rs_camera) : Prop :=
  heap_sized c ∧ slots_bound c ∧
  ((∃ s id, streams c !! s = Some (Some id)) → is_Some (first_handle c)).

(** [rs_camera::~rs_camera]: [subdevices.clear()] destroys every open
    handle, and the destructor of a handle stops its streaming.  The
    language does not fix the order in which [clear] destroys the elements;
    the handles are taken by index here, and what is proved of the
    destructor does not rest on that order. *)
Definition rs_camera_destroy (c : rs_camera) : rs_camera :=
  with_subdevices []
    (foldl (λ c o, if o is Some sh then (stop_streaming sh c).2 else c)
       c (subdevices c)).

(** A capture state against the buffer store [h]: one buffer per stream mode
    of its subdevice mode, which is what [subdevice_handle::set_mode]
    asserts; the buffers pairwise distinct and in the store, the [k]-th one
    set to the [k]-th stream mode. *)
Definition capture_state_ok (h : list stream_buffer) (cs : capture_state)
  : Prop :=
  length (cs_streams cs) = length (sdm_streams (cs_mode cs)) ∧
  NoDup (cs_streams cs) ∧
  ∀ k id, cs_streams cs !! k = Some id →
          ∃ b, h !! id = Some b ∧
               sdm_streams (cs_mode cs) !! k = Some (mode b).

(** The open subdevices of a session: each sits in the slot of the subdevice
    it claimed, has a capture state, and streams only while the session is
    capturing; a first handle exists; no buffer belongs to two subdevices;
    and the buffer of every populated stream slot belongs to an open
    subdevice. *)
Definition subdevices_ok (c : rs_camera) : Prop :=
  (∀ i sh, subdevices c !! i = Some (Some sh) →
     handle sh = i ∧ is_Some (first_handle c) ∧
     (streaming sh = true → is_capturing c = true) ∧
     ∃ cs, state sh = Some cs ∧ capture_state_ok (heap c) cs) ∧
  (∀ i j sh sh' cs cs' id,
     subdevices c !! i = Some (Some sh) →
     subdevices c !! j = Some (Some sh') →
     state sh = Some cs → state sh' = Some cs' →
     id ∈ cs_streams cs → id ∈ cs_streams cs' → i = j) ∧
  (∀ s id, streams c !! s = Some (Some id) →
     ∃ i sh cs, subdevices c !! i = Some (Some sh) ∧ state sh = Some cs ∧
                id ∈ cs_streams cs).

(** The transport calls made by one round of the loop over subdevices:
    when [select_mode] finds a mode for subdevice [i], the subdevice is
    claimed and then set to that mode. *)
Definition open_events (reqs : list stream_request) (i : nat)
  : list hw_event :=
  match select_mode reqs (Z.of_nat i) with
  | Ok (Some m) =>
      [ev_claim_subdevice i;
       ev_set_mode i (sdm_width m) (sdm_height m) (sdm_format m) (sdm_fps m)]
  | _ => []
  end.

(** Stream [s] is one of the streams of the mode selected for some
    subdevice below [n]. *)
Definition covered (reqs : list stream_request) (n s : nat) : Prop :=
  ∃ i m sm, (i < n)%nat ∧ select_mode reqs (Z.of_nat i) = Ok (Some m) ∧
            sm ∈ sdm_streams m ∧ stream sm = s.

(** No frame of the schedule [env] arrives on subdevice [i]. *)
Definition starved (i : nat) (env : list batch) : Prop :=
  ∀ b ev, b ∈ env → ev ∈ b → ev.1 ≠ i.

(** [c'] has the subdevices of [c], and its buffer [id] is as in [c]. *)
Definition buffer_kept (id : nat) (c c' : rs_camera) : Prop :=
  subdevices c' = subdevices c ∧ heap c' !! id = heap c !! id.

(** Of the subdevices of [c], only subdevice [i] may write to buffer
    [id]. *)
Definition sole_producer (i id : nat) (c : rs_camera) : Prop :=
  ∀ j sh cs, subdevices c !! j = Some (Some sh) → state sh = Some cs →
    NoDup (cs_streams cs) ∧ (j ≠ i → id ∉ cs_streams cs).

End Camera.

Arguments calibration_info : clear implicits.
Arguments rs_camera : clear implicits.
Arguments camera_model : clear implicits.

(** ** The example scenario of the specification (section 8)

    Subdevice 0 serves colour only at 640x480, 30 fps; subdevice 1 serves
    depth only at 640x480, 30 fps.  A third stream, infrared, has no
    subdevice on this camera. *)
Module Scenario.

Definition DEPTH : rs_stream := 0%nat.
Definition COLOR : rs_stream := 1%nat.
Definition Z16 : rs_format := 1%nat.
Definition RGB8 : rs_format := 2%nat.

Definition copy_frame (frame : raw_frame) : list (list byte) := [frame].

Definition color_mode (fps : Z) : subdevice_mode :=
  mk_subdevice_mode 0 640 480 0 fps
    [mk_stream_mode COLOR 640 480 RGB8 fps 0] copy_frame None.

Definition depth_mode (fps : Z) : subdevice_mode :=
  mk_subdevice_mode 1 640 480 0 fps
    [mk_stream_mode DEPTH 640 480 Z16 fps 1] copy_frame
    (Some (λ frame, Z.of_nat (length frame))).

Definition info : static_camera_info :=
  mk_static_camera_info [1; 0; -1]
    [[mk_stream_request true 640 480 Z16 30];
     [mk_stream_request true 640 480 RGB8 30];
     [stream_request_zero]]
    [color_mode 30; depth_mode 30].


(** One byte for 4096 pixels keeps the images of the scenario small. *)
Definition image_size (w h : Z) (f : rs_format) : nat :=
  Z.to_nat (w * h / 4096).

Definition calibration : calibration_info string unit :=
  mk_calibration_info ["color 640x480"; "depth 640x480"]%string [(); ()].

Definition model_of (i : static_camera_info)
    (k : calibration_info string unit) : camera_model string unit :=
  mk_camera_model i image_size (select_mode_spec i) Ok (λ _, k).

Definition model : camera_model string unit := model_of info calibration.


Definition session := rs_camera string unit.

Definition new (M : camera_model string unit) : session :=
  rs_camera_new (M := M).

(** Colour and depth requested at 640x480, 30 fps. *)
Definition requested (M : camera_model string unit) : session :=
  (enable_stream (M := M) DEPTH 640 480 Z16 30
     (enable_stream (M := M) COLOR 640 480 RGB8 30 (new M)).1).1.

(** Colour as before, depth at a resolution the catalog does not have. *)
Definition requested_bad_depth (M : camera_model string unit) : session :=
  (enable_stream (M := M) DEPTH 1280 720 Z16 30
     (enable_stream (M := M) COLOR 640 480 RGB8 30 (new M)).1).1.


Definition configured (M : camera_model string unit) : session :=
  (configure_enabled_streams (M := M) (requested M)).1.


(** Calls from a new session: both streams requested, then configured
    twice; and the unsupported depth request, a configuration that throws,
    then [start_capture]. *)
Definition configure_once : list call :=
  [call_enable_stream COLOR 640 480 RGB8 30;
   call_enable_stream DEPTH 640 480 Z16 30;
   call_configure_enabled_streams].




End Scenario.

(** Two small buffers: one the capture thread has just filled, one it has
    not touched since the consumer last took its image. *)
Module Buffers.

Definition vga_depth : stream_mode :=
  mk_stream_mode Scenario.DEPTH 640 480 Scenario.Z16 30 1.

Definition img (a b : byte) (n : Z) : image := mk_image [a; b] n.

Definition filled : stream_buffer :=
  mk_stream_buffer vga_depth (img x01 x02 7) (img x03 x04 8) (img x05 x06 6)
    true.

Definition drained : stream_buffer :=
  mk_stream_buffer vga_depth (img x03 x04 8) (img x01 x02 7) (img x05 x06 6)
    false.

End Buffers.

(** A session that captures colour and depth at 30 fps, the calls that lead
    to it, its depth subdevice, and frames for it. *)
Module Running.

Definition start_calls : list call :=
  [call_enable_stream Scenario.COLOR 640 480 Scenario.RGB8 30;
   call_enable_stream Scenario.DEPTH 640 480 Scenario.Z16 30;
   call_start_capture].

Definition capturing : Scenario.session :=
  (start_capture (M := Scenario.model) (Scenario.requested Scenario.model)).1.

(** Subdevice 1 delivers depth into the second buffer created. *)
Definition depth_state : capture_state :=
  mk_capture_state (Scenario.depth_mode 30) [1%nat].

Definition depth_handle : subdevice_handle :=
  mk_subdevice_handle 1 (Some depth_state) true.

(** A depth frame of the size of the mode, 75 bytes. *)
Definition depth_frame : raw_frame := replicate 75 x07.

(** A schedule on which frames arrive on the colour subdevice only. *)
Definition color_only : list batch :=
  [[(0%nat, [x0a; x0b; x0c])]; []; [(0%nat, [x0d])]].

(** A configured session that is configured again and then stopped. *)
Definition again_and_stop : list call :=
  [call_configure_enabled_streams; call_stop_capture].

Definition again_and_start : list call :=
  [call_configure_enabled_streams; call_start_capture].

End Running.

(** * Properties *)

(** ** stream_buffer *)

Lemma length_resize_pixels n v : length (resize_pixels n v) = n.
Proof.
  unfold resize_pixels.
  rewrite length_app, length_take, length_replicate. lia.
Qed.

Lemma length_overwrite old written :
  length (overwrite old written) = length old.
Proof.
  unfold overwrite.
  rewrite length_take, length_app, length_drop. lia.
Qed.

Lemma slots_sized_equal n b : slots_sized n b → equal_slots b.
Proof. unfold slots_sized, equal_slots. intros (-> & -> & ->). done. Qed.

Lemma run_buffer_op_sized n o b :
  slots_sized n b → slots_sized n (run_buffer_op o b).
Proof.
  intros (Hf & Hm & Hb). destruct o; simpl.
  - unfold update_image. destruct (updated b); simpl; repeat split; done.
  - repeat split; simpl; try done. by rewrite length_overwrite.
  - repeat split; done.
  - repeat split; done.
Qed.

Lemma run_buffer_op_equal o b :
  equal_slots b → equal_slots (run_buffer_op o b).
Proof.
  unfold equal_slots. intros (Hfm & Hmb). destruct o; simpl.
  - unfold update_image. destruct (updated b); simpl; split; congruence.
  - by rewrite length_overwrite.
  - done.
  - split; congruence.
Qed.

Lemma run_buffer_ops_sized n os b :
  slots_sized n b → slots_sized n (run_buffer_ops os b).
Proof.
  revert b. induction os as [|o os IH]; intros b Hb; simpl; [done|].
  apply IH. by apply run_buffer_op_sized.
Qed.

Lemma run_buffer_op_mode o b : mode (run_buffer_op o b) = mode b.
Proof.
  destruct o; simpl; try done.
  unfold update_image. by destruct (updated b).
Qed.

Lemma run_buffer_ops_mode os b : mode (run_buffer_ops os b) = mode b.
Proof.
  revert b. induction os as [|o os IH]; intros b; simpl; [done|].
  rewrite IH. apply run_buffer_op_mode.
Qed.

(** C4.  [update_image] on a buffer whose updated flag is false returns
    false and leaves the buffer as it is; on a buffer whose flag is true it
    returns true, exchanges front and middle, clears the flag and leaves the
    back slot (and the mode) alone. *)
Theorem update_image_exchanges_front_and_middle (b : stream_buffer) :
  (updated b = false → update_image b = (false, b)) ∧
  (updated b = true →
     (update_image b).1 = true ∧
     front (update_image b).2 = middle b ∧
     middle (update_image b).2 = front b ∧
     back (update_image b).2 = back b ∧
     updated (update_image b).2 = false ∧
     mode (update_image b).2 = mode b).
Proof.
  unfold update_image. split; intros ->; simpl; repeat split; reflexivity.
Qed.

Lemma update_image_exchanges_front_and_middle_witness :
  update_image Buffers.drained = (false, Buffers.drained) ∧
  (update_image Buffers.filled).1 = true ∧
  front (update_image Buffers.filled).2 = Buffers.img x03 x04 8 ∧
  middle (update_image Buffers.filled).2 = Buffers.img x01 x02 7 ∧
  back (update_image Buffers.filled).2 = Buffers.img x05 x06 6 ∧
  updated (update_image Buffers.filled).2 = false ∧
  mode (update_image Buffers.filled).2 = Buffers.vga_depth.
Proof.
  split.
  - apply (proj1 (update_image_exchanges_front_and_middle Buffers.drained)).
    reflexivity.
  - apply (proj2 (update_image_exchanges_front_and_middle Buffers.filled)).
    reflexivity.
Defined.

Section BufferProperties.

Context {rs_intrinsics pose : Type} {M : camera_model rs_intrinsics pose}.

Lemma set_mode_sized m b :
  slots_sized (mode_size m) (stream_buffer_set_mode m b).
Proof.
  unfold slots_sized, stream_buffer_set_mode, mode_size; simpl.
  rewrite length_resize_pixels. done.
Qed.

End BufferProperties.

(** ** The session *)

Section SessionProperties.

Context {rs_intrinsics pose : Type} {M : camera_model rs_intrinsics pose}.
Implicit Types c : rs_camera rs_intrinsics pose.

Lemma quiet_refl c : quiet c c.
Proof. done. Qed.

Lemma quiet_trans c1 c2 c3 : quiet c1 c2 → quiet c2 c3 → quiet c1 c3.
Proof.
  intros (Hk & Hn & Hf) (Hk' & Hn' & Hf'). repeat split; try congruence.
  intros Hs. rewrite Hf', Hf; try done. by rewrite Hf.
Qed.

Lemma calibration_fetches_log_event e c :
  e ≠ ev_retrieve_calibration →
  calibration_fetches (log_event e c) = calibration_fetches c.
Proof.
  intros He. unfold calibration_fetches, log_event; simpl.
  rewrite filter_app, length_app. simpl.
  rewrite filter_cons_False, filter_nil by done. simpl. lia.
Qed.

Lemma quiet_log_event e c :
  e ≠ ev_retrieve_calibration → quiet c (log_event e c).
Proof.
  intros He. repeat split. by apply calibration_fetches_log_event.
Qed.

Lemma quiet_with_heap h c : quiet c (with_heap h c).
Proof. done. Qed.

Lemma quiet_with_streams s c : quiet c (with_streams s c).
Proof. done. Qed.

Lemma quiet_with_subdevices s c : quiet c (with_subdevices s c).
Proof. done. Qed.

Lemma quiet_with_requests r c : quiet c (with_requests r c).
Proof. done. Qed.

Lemma quiet_with_is_capturing b c : quiet c (with_is_capturing b c).
Proof. done. Qed.

Hint Resolve quiet_refl quiet_log_event quiet_with_heap quiet_with_streams
  quiet_with_subdevices quiet_with_requests quiet_with_is_capturing : core.

(** *** Resetting the slots *)

Lemma stop_all_frame (l : list (option subdevice_handle)) c :
  let c' := foldl (λ c o, if o is Some sh then (stop_streaming sh c).2 else c)
              c l in
  quiet c c' ∧ requests c' = requests c ∧ streams c' = streams c ∧
  subdevices c' = subdevices c ∧ first_handle c' = first_handle c ∧
  heap c' = heap c ∧ is_capturing c' = is_capturing c.
Proof.
  revert c. induction l as [|[sh|] l IH]; intros c; simpl; [done| |apply IH].
  destruct (IH (log_event (ev_stop_streaming (handle sh)) c))
    as (Hq & Hr & Hs & Hd & Hf & Hh & Hc).
  split; [|done].
  eapply quiet_trans; [|exact Hq]. by apply quiet_log_event.
Qed.

Lemma reset_subdevices_frame c :
  quiet c (reset_subdevices c) ∧
  requests (reset_subdevices c) = requests c ∧
  streams (reset_subdevices c) = streams c ∧
  subdevices (reset_subdevices c) = replicate (length (subdevices c)) None ∧
  first_handle (reset_subdevices c) = first_handle c ∧
  heap (reset_subdevices c) = heap c ∧
  is_capturing (reset_subdevices c) = is_capturing c.
Proof.
  unfold reset_subdevices.
  destruct (stop_all_frame (subdevices c) c)
    as (Hq & Hr & Hs & Hd & Hf & Hh & Hc).
  repeat split; simpl; try done; apply Hq.
Qed.

Lemma open_subdevices_replicate_None n c :
  subdevices c = replicate n None → open_subdevices c = [].
Proof.
  unfold open_subdevices. intros ->. induction n; simpl; done.
Qed.

(** *** [enable_stream] and [enable_stream_preset] *)

Lemma enable_stream_after_open s w h f fps c :
  is_Some (first_handle c) →
  enable_stream s w h f fps c = (c, Throw streams_cannot_be_reconfigured).
Proof. intros [x Hx]. unfold enable_stream. by rewrite Hx. Qed.

Lemma enable_stream_preset_after_open s p c :
  is_Some (first_handle c) →
  enable_stream_preset s p c = (c, Throw streams_cannot_be_reconfigured).
Proof. intros [x Hx]. unfold enable_stream_preset. by rewrite Hx. Qed.

Lemma enable_stream_quiet s w h f fps c :
  quiet c (enable_stream s w h f fps c).1.
Proof.
  unfold enable_stream. destruct (first_handle c); [done|].
  case_decide; done.
Qed.

Lemma enable_stream_preset_quiet s p c :
  quiet c (enable_stream_preset s p c).1.
Proof.
  unfold enable_stream_preset. destruct (first_handle c); [done|].
  destruct (negb _); done.
Qed.

(** *** Opening a subdevice *)

Lemma create_buffers_frame sms c :
  let c' := (create_buffers sms c).1 in
  quiet c c' ∧ requests c' = requests c ∧ subdevices c' = subdevices c ∧
  first_handle c' = first_handle c ∧ is_capturing c' = is_capturing c ∧
  length (streams c') = length (streams c).
Proof.
  revert c. induction sms as [|sm sms IH]; intros c; [done|].
  cbn [create_buffers].
  set (c1 := with_heap (heap c ++ [stream_buffer_new]) c).
  set (c2 := if enabled (requests c1 !!! stream sm)
             then with_streams (<[stream sm:=Some (length (heap c))]> (streams c1)) c1
             else c1).
  specialize (IH c2). destruct (create_buffers sms c2) as [c3 ids]; simpl in *.
  assert (quiet c c2 ∧ requests c2 = requests c ∧
          subdevices c2 = subdevices c ∧ first_handle c2 = first_handle c ∧
          is_capturing c2 = is_capturing c ∧
          length (streams c2) = length (streams c)) as (Hq & Hr & Hd & Hf & Hc & Hl).
  { unfold c2. destruct (enabled _); simpl; repeat split; try done.
    by rewrite length_insert. }
  destruct IH as (Hq' & Hr' & Hd' & Hf' & Hc' & Hl').
  repeat split; try congruence; try (eapply quiet_trans; [|exact Hq']; exact Hq).
Qed.

Lemma subdevice_handle_set_mode_frame i m ids c :
  let c' := subdevice_handle_set_mode i m ids c in
  quiet c c' ∧ requests c' = requests c ∧ streams c' = streams c ∧
  first_handle c' = first_handle c ∧ is_capturing c' = is_capturing c ∧
  length (subdevices c') = length (subdevices c) ∧
  (∀ j, is_Some (subdevices c' !! j) ↔ is_Some (subdevices c !! j)) ∧
  (∀ j, subdevices c !! j = Some None → subdevices c' !! j = Some None) ∧
  (∀ j sh, subdevices c !! j = Some (Some sh) →
           ∃ sh', subdevices c' !! j = Some (Some sh') ∧ handle sh' = handle sh).
Proof.
  unfold subdevice_handle_set_mode; simpl.
  split; [|repeat split; try done].
  - repeat split; simpl; try done.
    apply (calibration_fetches_log_event _ c). done.
  - by rewrite length_alter.
  - rewrite !lookup_lt_is_Some, length_alter. done.
  - rewrite !lookup_lt_is_Some, length_alter. done.
  - intros j Hj. destruct (decide (i = j)) as [->|Hne].
    + rewrite list_lookup_alter_eq, Hj. done.
    + by rewrite list_lookup_alter_ne.
  - intros j sh Hj. destruct (decide (i = j)) as [->|Hne].
    + rewrite list_lookup_alter_eq, Hj. simpl. eauto.
    + rewrite list_lookup_alter_ne by done. eauto.
Qed.

Lemma open_subdevice_frame i m c :
  let c' := open_subdevice i m c in
  quiet c c' ∧ requests c' = requests c ∧
  is_Some (first_handle c') ∧ is_capturing c' = is_capturing c ∧
  length (subdevices c') = length (subdevices c) ∧
  length (streams c') = length (streams c).
Proof.
  unfold open_subdevice.
  set (c1 := with_subdevices _ (log_event (ev_claim_subdevice i) c)).
  set (c2 := if first_handle c1 is Some _ then c1
             else with_first_handle (Some i) c1).
  assert (quiet c c2 ∧ requests c2 = requests c ∧ is_Some (first_handle c2) ∧
          is_capturing c2 = is_capturing c ∧
          length (subdevices c2) = length (subdevices c) ∧
          length (streams c2) = length (streams c))
    as (Hq & Hr & Hf & Hc & Hl & Hs).
  { unfold c2, c1; simpl.
    destruct (first_handle c) as [h|] eqn:Hfh; simpl.
    - repeat split; simpl; try done; try (by rewrite length_insert).
      apply (calibration_fetches_log_event _ c). done.
    - repeat split; simpl; try done; try (by rewrite length_insert).
      + apply (calibration_fetches_log_event _ c). done.
      + rewrite Hfh. by intros [? ?]. }
  pose proof (create_buffers_frame (sdm_streams m) c2) as Hb.
  destruct (create_buffers (sdm_streams m) c2) as [c3 ids]; simpl in Hb.
  destruct Hb as (Hq3 & Hr3 & Hd3 & Hf3 & Hc3 & Hl3).
  pose proof (subdevice_handle_set_mode_frame i m ids c3) as Hm.
  cbv zeta in Hm. destruct Hm as (Hq4 & Hr4 & Hs4 & Hf4 & Hc4 & Hl4 & _).
  split; [|split; [|split; [|split; [|split]]]]; try congruence.
  eapply quiet_trans; [exact Hq|]. eapply quiet_trans; [exact Hq3|exact Hq4].
Qed.

(** *** The loop over subdevices *)

Lemma configure_loop_frame todo c :
  let c' := (configure_loop todo c).1 in
  quiet c c' ∧ requests c' = requests c ∧ is_capturing c' = is_capturing c ∧
  length (subdevices c') = length (subdevices c) ∧
  length (streams c') = length (streams c).
Proof.
  revert c. induction todo as [|i todo IH]; intros c; simpl; [done|].
  destruct (select_mode (requests c) (Z.of_nat i)) as [[m|]|e]; simpl;
    [|apply IH|done].
  destruct (open_subdevice_frame i m c) as (Hq & Hr & _ & Hc & Hl & Hs).
  destruct (IH (open_subdevice i m c)) as (Hq' & Hr' & Hc' & Hl' & Hs').
  split; [|split; [|split; [|split]]]; try congruence.
  eapply quiet_trans; [exact Hq|exact Hq'].
Qed.

Lemma configure_loop_handle todo c :
  is_Some (first_handle (configure_loop todo c).1) ∨
  (subdevices (configure_loop todo c).1 = subdevices c ∧
   streams (configure_loop todo c).1 = streams c).
Proof.
  revert c. induction todo as [|i todo IH]; intros c; simpl; [by right|].
  destruct (select_mode (requests c) (Z.of_nat i)) as [[m|]|e]; simpl;
    [|apply IH|by right].
  left.
  destruct (open_subdevice_frame i m c) as (_ & _ & Hf & _).
  destruct (configure_loop_frame todo (open_subdevice i m c)) as ((_ & _ & Hq) & _).
  by rewrite Hq.
Qed.

Lemma fetch_calibration_frame c :
  requests (fetch_calibration c) = requests c ∧
  streams (fetch_calibration c) = streams c ∧
  subdevices (fetch_calibration c) = subdevices c ∧
  first_handle (fetch_calibration c) = first_handle c ∧
  heap (fetch_calibration c) = heap c ∧
  is_capturing (fetch_calibration c) = is_capturing c.
Proof. unfold fetch_calibration. by destruct (_ && _). Qed.

(** *** [configure_enabled_streams] *)

(** The session after the two reset loops. *)
Lemma reset_frame c :
  let c1 := reset_streams (reset_subdevices c) in
  quiet c c1 ∧ requests c1 = requests c ∧
  streams c1 = replicate (length (streams c)) None ∧
  subdevices c1 = replicate (length (subdevices c)) None ∧
  first_handle c1 = first_handle c ∧ heap c1 = heap c ∧
  is_capturing c1 = is_capturing c.
Proof.
  destruct (reset_subdevices_frame c) as (Hq & Hr & Hs & Hd & Hf & Hh & Hc).
  unfold reset_streams, with_streams. cbn -[reset_subdevices].
  rewrite Hs.
  split; [|split; [|split; [|split; [|split; [|split]]]]]; done.
Qed.

(** A call on a session that already has a first handle closes every
    subdevice, empties every stream slot and opens nothing. *)
Lemma configure_enabled_streams_again c :
  is_Some (first_handle c) →
  (configure_enabled_streams c).2 = Ok () ∧
  subdevices (configure_enabled_streams c).1 =
    replicate (length (subdevices c)) None ∧
  streams (configure_enabled_streams c).1 =
    replicate (length (streams c)) None ∧
  open_subdevices (configure_enabled_streams c).1 = [] ∧
  first_handle (configure_enabled_streams c).1 = first_handle c.
Proof.
  intros [h Hh]. unfold configure_enabled_streams.
  destruct (reset_frame c) as (_ & _ & Hs & Hd & Hf & _).
  cbv zeta in Hs, Hd, Hf.
  set (c1 := reset_streams (reset_subdevices c)) in *.
  rewrite Hf, Hh; simpl.
  destruct (fetch_calibration_frame c1) as (_ & Hs' & Hd' & Hf' & _).
  rewrite Hs', Hd', Hf', Hs, Hd, Hf.
  split; [done|]. split; [done|]. split; [done|]. split; [|done].
  eapply open_subdevices_replicate_None. by rewrite Hd', Hd.
Qed.

(** Whatever the outcome, an open subdevice goes with a first handle. *)
Lemma configure_enabled_streams_handle c :
  open_subdevices (configure_enabled_streams c).1 ≠ [] →
  is_Some (first_handle (configure_enabled_streams c).1).
Proof.
  destruct (first_handle c) as [h|] eqn:Hh.
  { intros _. destruct (configure_enabled_streams_again c) as (_ & _ & _ & _ & ->);
      rewrite Hh; done. }
  unfold configure_enabled_streams.
  destruct (reset_frame c) as (_ & _ & _ & Hd & Hf & _).
  cbv zeta in Hd, Hf.
  set (c1 := reset_streams (reset_subdevices c)) in *.
  rewrite Hf, Hh.
  destruct (enforce_interstream_constraints (requests c1)) as [reqs|e]; simpl.
  2:{ intros Ho. exfalso. apply Ho.
      eapply open_subdevices_replicate_None, Hd. }
  pose proof (configure_loop_handle (seq 0 (length (subdevices c1)))
                (with_requests reqs c1)) as Hl.
  destruct (configure_loop _ _) as [c2 [[]|e]]; simpl in *.
  - destruct (fetch_calibration_frame c2) as (_ & _ & Hd' & Hf' & _).
    unfold open_subdevices. rewrite Hd', Hf'.
    destruct Hl as [Hl|[Hl _]]; [done|]. intros Ho. exfalso. apply Ho.
    eapply (open_subdevices_replicate_None _ c2). by rewrite Hl.
  - destruct Hl as [Hl|[Hl _]]; [done|]. intros Ho. exfalso. apply Ho.
    eapply (open_subdevices_replicate_None _ c2). by rewrite Hl.
Qed.

(** *** Starting and stopping *)

Lemma for_each_subdevice_frame f b
    (Hf : ∀ sh c, ∃ e, e ≠ ev_retrieve_calibration ∧
            f sh c = (set_streaming b sh, log_event e c))
    (l pre : list (option subdevice_handle)) c :
  subdevices c = pre ++ l →
  let c' := for_each_subdevice f (length pre) l c in
  quiet c c' ∧ requests c' = requests c ∧ streams c' = streams c ∧
  first_handle c' = first_handle c ∧ heap c' = heap c ∧
  is_capturing c' = is_capturing c ∧
  subdevices c' = pre ++ (fmap (M := option) (set_streaming b) <$> l).
Proof.
  revert pre c. induction l as [|[sh|] l IH]; intros pre c Hc; simpl.
  - rewrite Hc. done.
  - destruct (Hf sh c) as (e & He & ->).
    set (c1 := with_subdevices _ _).
    assert (subdevices c1 =
            (pre ++ [Some (set_streaming b sh)]) ++ l)
      as Hc1.
    { unfold c1; simpl. rewrite Hc.
      rewrite insert_app_r_alt by lia.
      rewrite Nat.sub_diag. simpl. by rewrite <- app_assoc. }
    specialize (IH _ c1 Hc1). rewrite length_app in IH. simpl in IH.
    rewrite Nat.add_1_r in IH.
    destruct IH as (Hq & Hr & Hs & Hh & Hp & Hi & Hd).
    split; [|split; [|split; [|split; [|split; [|split]]]]]; try done.
    + eapply quiet_trans; [|exact Hq]. unfold c1.
      eapply quiet_trans; [by apply (quiet_log_event e)|]. done.
    + rewrite Hd, <- app_assoc. done.
  - assert (subdevices c = (pre ++ [None]) ++ l) as Hc1
        by (by rewrite <- app_assoc).
    specialize (IH _ c Hc1). rewrite length_app in IH. simpl in IH.
    rewrite Nat.add_1_r in IH.
    destruct IH as (Hq & Hr & Hs & Hh & Hp & Hi & Hd).
    split; [|split; [|split; [|split; [|split; [|split]]]]]; try done.
    rewrite Hd, <- app_assoc. done.
Qed.

Lemma start_streaming_shape sh c :
  ∃ e, e ≠ ev_retrieve_calibration ∧
    start_streaming sh c = (set_streaming true sh, log_event e c).
Proof. by exists (ev_start_streaming (handle sh)). Qed.

Lemma stop_streaming_shape sh c :
  ∃ e, e ≠ ev_retrieve_calibration ∧
    stop_streaming sh c = (set_streaming false sh, log_event e c).
Proof. by exists (ev_stop_streaming (handle sh)). Qed.

Lemma open_subdevices_set_streaming b c c' :
  subdevices c' = (fmap (M := option) (set_streaming b) <$> subdevices c) →
  open_subdevices c' = open_subdevices c.
Proof.
  unfold open_subdevices. intros ->.
  induction (subdevices c) as [|[sh|] l IH]; [done| |exact IH].
  rewrite fmap_cons. cbn [fmap option_fmap option_map].
  change (handle (set_streaming b sh) :: omap (fmap handle) (fmap (M := option) (set_streaming b) <$> l) =
          handle sh :: omap (fmap handle) l).
  by rewrite IH.
Qed.

Lemma start_tail_frame c :
  let c0 := log_event ev_set_stream_intent c in
  let c' := with_is_capturing true
              (for_each_subdevice start_streaming 0 (subdevices c0) c0) in
  quiet c c' ∧ requests c' = requests c ∧ streams c' = streams c ∧
  first_handle c' = first_handle c ∧ heap c' = heap c ∧
  is_capturing c' = true ∧
  subdevices c' = (fmap (M := option) (set_streaming true) <$> subdevices c).
Proof.
  intros c0 c'.
  destruct (for_each_subdevice_frame start_streaming true
              start_streaming_shape (subdevices c0) [] c0 eq_refl)
    as (Hq & Hr & Hs & Hf & Hh & Hc & Hd).
  unfold c'. cbn -[for_each_subdevice c0].
  split; [|split; [|split; [|split; [|split; [|split]]]]]; try done.
  apply (quiet_trans c c0); [by apply quiet_log_event|].
  eapply quiet_trans; [exact Hq|done].
Qed.

Lemma stop_capture_frame c :
  let c' := (stop_capture c).1 in
  quiet c c' ∧ requests c' = requests c ∧ streams c' = streams c ∧
  first_handle c' = first_handle c ∧ heap c' = heap c ∧
  is_capturing c' = false ∧
  subdevices c' = (fmap (M := option) (set_streaming false) <$> subdevices c).
Proof.
  destruct (for_each_subdevice_frame stop_streaming false
              stop_streaming_shape (subdevices c) [] c eq_refl)
    as (Hq & Hr & Hs & Hf & Hh & Hc & Hd).
  unfold stop_capture. cbn -[for_each_subdevice].
  split; [|split; [|split; [|split; [|split; [|split]]]]]; done.
Qed.



(** *** Intrinsics *)






(** *** The capture thread changes the buffer store only *)

Lemma heap_only_refl c : heap_only c c.
Proof. exists (heap c). by destruct c. Qed.

Lemma heap_only_trans c1 c2 c3 :
  heap_only c1 c2 → heap_only c2 c3 → heap_only c1 c3.
Proof. intros [h ->] [h' ->]. by exists h'. Qed.

Lemma heap_only_with_heap h c : heap_only c (with_heap h c).
Proof. by exists h. Qed.

Lemma heap_only_quiet c c' : heap_only c c' → quiet c c'.
Proof. by intros [h ->]. Qed.

Lemma keeps_shape_op o : keeps_shape (run_buffer_op o).
Proof.
  intros b. split; [apply run_buffer_op_mode|].
  intros n. apply run_buffer_op_sized.
Qed.

Lemma same_shape_refl h : same_shape h h.
Proof. done. Qed.

Lemma same_shape_trans h1 h2 h3 :
  same_shape h1 h2 → same_shape h2 h3 → same_shape h1 h3.
Proof.
  intros [Hl12 H12] [Hl23 H23]. split; [congruence|]. intros j.
  destruct (H12 j) as [Hm Hs], (H23 j) as [Hm' Hs'].
  split; [congruence|]. intros n Hn. by apply Hs', Hs.
Qed.

Lemma same_shape_alter f i h : keeps_shape f → same_shape h (alter f i h).
Proof.
  intros Hf. split; [apply length_alter|]. intros j.
  rewrite list_lookup_total_alter.
  case_decide as Hij; [|done]. destruct Hij as [-> _]. apply Hf.
Qed.

Lemma same_shape_insert i b h :
  mode b = mode (h !!! i) →
  (∀ n, slots_sized n (h !!! i) → slots_sized n b) →
  same_shape h (<[i:=b]> h).
Proof.
  intros Hm Hs. split; [apply length_insert|]. intros j.
  rewrite list_lookup_total_insert.
  case_decide as Hij; [|done]. by destruct Hij as [-> _].
Qed.

Lemma same_shape_foldl {A} (g : A → nat)
    (f : A → stream_buffer → stream_buffer) (l : list A) h :
  (∀ a, keeps_shape (f a)) →
  same_shape h (foldl (λ h a, alter (f a) (g a) h) h l).
Proof.
  intros Hf. revert h. induction l as [|a l IH]; intros h; simpl; [done|].
  eapply same_shape_trans; [|apply IH]. by apply same_shape_alter.
Qed.

Lemma capture_callback_shape s frame h :
  same_shape h (capture_callback s frame h).
Proof.
  unfold capture_callback.
  eapply same_shape_trans;
    [|apply (same_shape_foldl id (λ _, publish_back));
      intros _; apply (keeps_shape_op op_publish)].
  eapply same_shape_trans;
    [apply (same_shape_foldl fst (λ p, unpack_into p.2));
     intros p; apply (keeps_shape_op (op_unpack p.2))|].
  destruct (frame_number_decoder (cs_mode s)) as [decode|]; [|done].
  apply (same_shape_foldl id (λ _, stamp_number (decode frame))).
  intros _. apply (keeps_shape_op (op_stamp (decode frame))).
Qed.

Lemma deliver_heap_only c ev :
  heap_only c (deliver c ev) ∧ same_shape (heap c) (heap (deliver c ev)).
Proof.
  unfold deliver.
  destruct (subdevices c !! ev.1) as [[sh|]|];
    [|by split; [apply heap_only_refl|]..].
  destruct (streaming sh), (state sh) as [s|];
    try (by split; [apply heap_only_refl|]).
  split; [apply heap_only_with_heap|apply capture_callback_shape].
Qed.

Lemma deliver_all_heap_only (b : batch) c :
  heap_only c (foldl deliver c b) ∧
  same_shape (heap c) (heap (foldl deliver c b)).
Proof.
  revert c. induction b as [|ev b IH]; intros c; simpl.
  - split; [apply heap_only_refl|done].
  - destruct (deliver_heap_only c ev) as [H1 H2].
    destruct (IH (deliver c ev)) as [H3 H4].
    split; [by eapply heap_only_trans|by eapply same_shape_trans].
Qed.

Lemma poll_heap_only id env c :
  heap_only c (poll id env c).1.2 ∧
  same_shape (heap c) (heap (poll id env c).1.2) ∧
  (poll id env c).2 = tail env.
Proof.
  unfold poll.
  destruct (deliver_all_heap_only (default [] (head env)) c) as [H1 H2].
  set (c1 := foldl deliver c (default [] (head env))) in *.
  destruct (keeps_shape_op op_update_image (heap c1 !!! id)) as [Hm Hs].
  cbn [run_buffer_op] in Hm, Hs.
  destruct (update_image (heap c1 !!! id)) as [r b]; simpl in *.
  split; [|split; [|done]].
  - eapply heap_only_trans; [exact H1|apply heap_only_with_heap].
  - eapply same_shape_trans; [exact H2|]. by apply same_shape_insert.
Qed.

Lemma stream_fps_same_shape c c' id :
  same_shape (heap c) (heap c') → stream_fps c' id = stream_fps c id.
Proof. intros [_ H]. unfold stream_fps. by destruct (H id) as [-> _]. Qed.

(** *** The calibration is retrieved at most once *)


Lemma calibration_fetches_retrieve c :
  calibration_fetches (log_event ev_retrieve_calibration c) =
    S (calibration_fetches c).
Proof.
  unfold calibration_fetches, log_event; simpl.
  rewrite filter_app, length_app. simpl. lia.
Qed.

(** The only place where [retrieve_calibration] is called. *)
Lemma fetch_calibration_step c :
  (fetch_calibration c = c ∨
   (calibration_fetches (fetch_calibration c) = S (calibration_fetches c) ∧
    calib (fetch_calibration c) = retrieve_calibration c ∧
    calibration_missing c = true ∧ is_Some (first_handle c))) ∧
  first_handle (fetch_calibration c) = first_handle c.
Proof.
  unfold fetch_calibration.
  destruct (calibration_missing c) eqn:Hm; simpl; [|by split; [left|]].
  case_bool_decide; [|by split; [left|]].
  split; [right|done].
  split; [apply calibration_fetches_retrieve|done].
Qed.

Lemma configure_enabled_streams_before_fetch c :
  ∃ c2, quiet c c2 ∧
    ((configure_enabled_streams c).1 = c2 ∨
     (configure_enabled_streams c).1 = fetch_calibration c2).
Proof.
  unfold configure_enabled_streams.
  destruct (reset_frame c) as (Hq & _). cbv zeta in Hq.
  set (c1 := reset_streams (reset_subdevices c)) in *.
  destruct (first_handle c1); [by exists c1; split; [|right]|].
  destruct (enforce_interstream_constraints (requests c1)) as [reqs|e];
    [|by exists c1; split; [|left]].
  destruct (configure_loop_frame (seq 0 (length (subdevices c1)))
              (with_requests reqs c1)) as (Hq' & _).
  destruct (configure_loop _ _) as [c2 [[]|e]]; simpl in *;
    (exists c2; split; [eapply quiet_trans; [exact Hq|exact Hq']|]);
    [by right|by left].
Qed.

Lemma start_capture_before_fetch c :
  ∃ c2 c3, quiet c c2 ∧ quiet c3 (start_capture c).1 ∧
    (c3 = c2 ∨ c3 = fetch_calibration c2).
Proof.
  unfold start_capture. destruct (first_handle c) as [h|] eqn:Hh.
  - exists c, c. split; [done|]. split; [|by left].
    destruct (start_tail_frame c) as (Hq & _). exact Hq.
  - destruct (configure_enabled_streams_before_fetch c) as (c2 & Hq & Hc).
    exists c2, (configure_enabled_streams c).1. split; [exact Hq|].
    split; [|exact Hc].
    destruct (configure_enabled_streams c) as [c1 [[]|e]]; [|done].
    destruct (start_tail_frame c1) as (Hq' & _). exact Hq'.
Qed.

(** *** [wait_all_streams] *)

Lemma spin_log s id env c c' env' log :
  spin s id env c = Some (c', env', log) →
  heap_only c c' ∧ same_shape (heap c) (heap c') ∧
  ∃ k, log = replicate k (s, false) ++ [(s, true)].
Proof.
  revert c log. induction env as [|b env IH]; intros c log; cbn [spin].
  - destruct (poll_heap_only id [] c) as (Hh & Hm & _).
    destruct (poll id [] c) as [[r c1] env1]; simpl in *.
    destruct r; [|done]. intros [= <- <- <-].
    split; [done|]. split; [done|]. by exists 0%nat.
  - destruct (poll_heap_only id (b :: env) c) as (Hh & Hm & _).
    destruct (poll id (b :: env) c) as [[r c1] env1]; simpl in *.
    destruct r.
    + intros [= <- <- <-]. split; [done|]. split; [done|]. by exists 0%nat.
    + destruct (spin s id env c1) as [[[c2 env2] log2]|] eqn:Hs; [|done].
      intros [= <- <- <-].
      destruct (IH _ _ Hs) as (Hh' & Hm' & k & ->).
      split; [by eapply heap_only_trans|].
      split; [by eapply same_shape_trans|]. by exists (S k).
Qed.

Lemma polls_of_spin_log s s' k :
  polls_of s' (replicate k (s, false) ++ [(s, true)]) =
    if decide (s = s') then replicate k (s, false) ++ [(s, true)] else [].
Proof.
  unfold polls_of. case_decide as Hs.
  - subst s'. induction k as [|k IH]; simpl.
    + by rewrite filter_cons_True, filter_nil.
    + rewrite filter_cons_True by done. by rewrite IH.
  - induction k as [|k IH]; simpl.
    + by rewrite filter_cons_False, filter_nil.
    + by rewrite filter_cons_False.
Qed.

Lemma polls_of_app s l1 l2 :
  polls_of s (l1 ++ l2) = polls_of s l1 ++ polls_of s l2.
Proof. apply filter_app. Qed.

Lemma polls_of_cons s e l :
  polls_of s (e :: l) =
    if decide (e.1 = s) then e :: polls_of s l else polls_of s l.
Proof.
  unfold polls_of. case_decide.
  - by rewrite filter_cons_True.
  - by rewrite filter_cons_False.
Qed.

(** The polls of a later stream are not changed by what an earlier stream
    put in front of them. *)
Lemma slot_polls_later maxFps c c1 s slot (log1 log2 : list (rs_stream * bool)) :
  same_shape (heap c) (heap c1) →
  polls_of s log1 = [] →
  slot_polls maxFps c1 s slot log2 →
  slot_polls maxFps c s slot (log1 ++ log2).
Proof.
  intros Hm H1. unfold slot_polls, waited_for, polled_once.
  rewrite polls_of_app, H1. simpl.
  destruct slot as [[id|]|]; try done.
  by rewrite (stream_fps_same_shape c c1).
Qed.

Lemma wait_loop_log maxFps slots s0 env c c' env' log :
  wait_loop maxFps s0 slots env c = Some (c', env', log) →
  heap_only c c' ∧ same_shape (heap c) (heap c') ∧
  (∀ s, (s < s0)%nat → polls_of s log = []) ∧
  (∀ j, slot_polls maxFps c (s0 + j)%nat (slots !! j) log).
Proof.
  revert s0 env c log.
  induction slots as [|[id|] slots IH]; intros s0 env c log; cbn [wait_loop].
  - intros [= <- <- <-]. split; [apply heap_only_refl|]. by split.
  - case_decide as Hfps.
    + destruct (spin s0 id env c) as [[[c1 env1] log1]|] eqn:Hs; [|done].
      destruct (wait_loop maxFps (S s0) slots env1 c1)
        as [[[c2 env2] log2]|] eqn:Hw; [|done].
      intros [= <- <- <-].
      destruct (spin_log _ _ _ _ _ _ _ Hs) as (Hh1 & Hm1 & k & ->).
      destruct (IH _ _ _ _ Hw) as (Hh2 & Hm2 & Hlt & Hj).
      split; [by eapply heap_only_trans|].
      split; [by eapply same_shape_trans|]. split.
      * intros s Hlt'.
        rewrite polls_of_app, polls_of_spin_log, decide_False by lia.
        apply Hlt. lia.
      * intros [|j]; simpl.
        -- rewrite decide_True by done. exists k.
           rewrite Nat.add_0_r.
           rewrite polls_of_app, polls_of_spin_log, decide_True by done.
           rewrite Hlt by lia. by rewrite app_nil_r.
        -- specialize (Hj j).
           replace (S s0 + j)%nat with (s0 + S j)%nat in Hj by lia.
           eapply slot_polls_later; [exact Hm1| |exact Hj].
           rewrite polls_of_spin_log, decide_False by lia. done.
    + destruct (poll_heap_only id env c) as (Hh1 & Hm1 & _).
      destruct (poll id env c) as [[r c1] env1]; simpl in Hh1, Hm1.
      destruct (wait_loop maxFps (S s0) slots env1 c1)
        as [[[c2 env2] log2]|] eqn:Hw; [|done].
      intros [= <- <- <-].
      destruct (IH _ _ _ _ Hw) as (Hh2 & Hm2 & Hlt & Hj).
      split; [by eapply heap_only_trans|].
      split; [by eapply same_shape_trans|]. split.
      * intros s Hlt'.
        rewrite polls_of_cons, decide_False by (simpl; lia).
        apply Hlt. lia.
      * intros [|j]; simpl.
        -- rewrite decide_False by done. exists r.
           rewrite Nat.add_0_r.
           rewrite polls_of_cons, decide_True by done.
           rewrite Hlt by lia. done.
        -- specialize (Hj j).
           replace (S s0 + j)%nat with (s0 + S j)%nat in Hj by lia.
           apply (slot_polls_later maxFps c c1 _ _ [(s0, r)] log2);
             [exact Hm1| |exact Hj].
           rewrite polls_of_cons, decide_False by (simpl; lia). done.
  - intros Hw. destruct (IH _ _ _ _ Hw) as (Hh2 & Hm2 & Hlt & Hj).
    split; [done|]. split; [done|]. split.
    + intros s Hlt'. apply Hlt. lia.
    + intros [|j]; simpl.
      * rewrite Nat.add_0_r. apply Hlt. lia.
      * specialize (Hj j).
        by replace (S s0 + j)%nat with (s0 + S j)%nat in Hj by lia.
Qed.






(** *** Calls in sequence *)

Lemma wait_all_streams_heap_only env c c' env' log :
  wait_all_streams env c = Some (c', env', log) → heap_only c c'.
Proof.
  unfold wait_all_streams. destruct (negb (is_capturing c)).
  - intros [= <- <- <-]. apply heap_only_refl.
  - intros Hw. by apply wait_loop_log in Hw as (Hh & _).
Qed.

(** A call retrieves the calibration at most once, and only
    [configure_enabled_streams] and [start_capture] do, with the calibration
    missing before the call and a first handle after it. *)
Lemma run_call_fetch k c c' :
  run_call k c = Some c' →
  (quiet c c' ∨
   ∃ c2, quiet c c2 ∧ quiet (fetch_calibration c2) c' ∧
         fetch_calibration c2 ≠ c2 ∧
         (k = call_configure_enabled_streams ∨ k = call_start_capture)).
Proof.
  assert (∀ c2 c3, quiet c c2 → quiet c3 c' →
            c3 = c2 ∨ c3 = fetch_calibration c2 →
            k = call_configure_enabled_streams ∨ k = call_start_capture →
            quiet c c' ∨
            ∃ c2, quiet c c2 ∧ quiet (fetch_calibration c2) c' ∧
                  fetch_calibration c2 ≠ c2 ∧
                  (k = call_configure_enabled_streams ∨ k = call_start_capture))
    as Hcase.
  { intros c2 c3 H2 H3 [->| ->] Hk.
    - left. by eapply quiet_trans.
    - destruct (decide (calibration_fetches (fetch_calibration c2) =
                        calibration_fetches c2)) as [Heq|Hne].
      + left. destruct (fetch_calibration_step c2) as [[Hs|(Hs & _)] _].
        * rewrite Hs in H3. by eapply quiet_trans.
        * lia.
      + right. exists c2. split; [exact H2|]. split; [exact H3|].
        split; [|exact Hk]. intros Heq. apply Hne. by rewrite Heq. }
  destruct k; simpl; intros Hrun.
  - injection Hrun as <-. left. apply enable_stream_quiet.
  - injection Hrun as <-. left. apply enable_stream_preset_quiet.
  - injection Hrun as <-.
    destruct (configure_enabled_streams_before_fetch c) as (c2 & Hq & Hc).
    eapply (Hcase c2 _ Hq (quiet_refl _)); [|by left].
    destruct Hc as [->| ->]; [by left|by right].
  - injection Hrun as <-.
    destruct (start_capture_before_fetch c) as (c2 & c3 & Hq & Hq' & Hc).
    eapply (Hcase c2 c3 Hq Hq' Hc). by right.
  - injection Hrun as <-. left.
    destruct (stop_capture_frame c) as (Hq & _). exact Hq.
  - left. apply heap_only_quiet.
    destruct (wait_all_streams env c) as [[[c1 env1] log1]|] eqn:Hw; [|done].
    injection Hrun as <-. by eapply wait_all_streams_heap_only.
  - injection Hrun as <-. left. apply heap_only_quiet.
    apply deliver_all_heap_only.
Qed.

Lemma calibration_missing_quiet c c' :
  quiet c c' → calibration_missing c' = calibration_missing c.
Proof. intros (Hk & _). unfold calibration_missing. by rewrite Hk. Qed.

Section NonEmptyCalibration.

(** The camera model never hands out an empty intrinsics table. *)
Hypothesis retrieve_calibration_nonempty :
  ∀ c, intrinsics (retrieve_calibration c) ≠ [].





End NonEmptyCalibration.

(** *** A session without requests *)

Lemma configure_loop_all_skipped todo c :
  (∀ i, i ∈ todo → select_mode (requests c) (Z.of_nat i) = Ok None) →
  configure_loop todo c = (c, Ok ()).
Proof.
  induction todo as [|i todo IH]; intros Hs; simpl; [done|].
  rewrite Hs by apply list_elem_of_here.
  apply IH. intros j Hj. apply Hs. by apply list_elem_of_further.
Qed.

Lemma fetch_calibration_no_handle c :
  first_handle c = None → fetch_calibration c = c.
Proof.
  intros Hf. unfold fetch_calibration. rewrite Hf.
  rewrite bool_decide_eq_false_2 by (by intros [? ?]).
  by rewrite andb_false_r.
Qed.

Lemma wait_loop_no_buffers maxFps s n env c :
  wait_loop maxFps s (replicate n None) env c = Some (c, env, []).
Proof. revert s. induction n as [|n IH]; intros s; simpl; [done|apply IH]. Qed.

Lemma max_fps_no_buffers n c :
  streams c = replicate n None → max_fps c = 0.
Proof.
  unfold max_fps. intros ->. induction n as [|n IH]; simpl; [done|apply IH].
Qed.

(** C10.  On a session that has no first handle and no enabled request,
    with a camera model whose constraint pass accepts such requests without
    enabling any and whose [select_mode] returns null when no request is
    enabled, [start_capture] returns normally with the capturing flag set,
    no subdevice open and no stream slot populated; the maximum fps is then
    0 and [wait_all_streams] returns at once, whatever the schedule, with
    no poll made and the session unchanged. *)
Theorem start_capture_without_requests c
    (Hsel : ∀ reqs i, Forall (λ r, enabled r = false) reqs →
                      select_mode reqs i = Ok None)
    (Henf : ∀ reqs, Forall (λ r, enabled r = false) reqs →
              ∃ reqs', enforce_interstream_constraints reqs = Ok reqs' ∧
                       Forall (λ r, enabled r = false) reqs')
    (Hfirst : first_handle c = None)
    (Hreq : Forall (λ r, enabled r = false) (requests c)) :
  (start_capture c).2 = Ok () ∧
  is_capturing (start_capture c).1 = true ∧
  open_subdevices (start_capture c).1 = [] ∧
  streams (start_capture c).1 = replicate (length (streams c)) None ∧
  max_fps (start_capture c).1 = 0 ∧
  ∀ env, wait_all_streams env (start_capture c).1 =
           Some ((start_capture c).1, env, []).
Proof.
  destruct (Henf _ Hreq) as (reqs & He & Hreqs).
  destruct (reset_frame c) as (_ & Hr & Hs & Hd & Hf & _).
  cbv zeta in Hr, Hs, Hd, Hf.
  assert (configure_enabled_streams c =
          (with_requests reqs (reset_streams (reset_subdevices c)), Ok ()))
    as Hcfg.
  { unfold configure_enabled_streams.
    set (c1 := reset_streams (reset_subdevices c)) in *.
    rewrite Hf, Hfirst, Hr, He.
    rewrite configure_loop_all_skipped by (intros i _; by apply Hsel).
    rewrite fetch_calibration_no_handle; [done|].
    cbn [first_handle with_requests]. by rewrite Hf. }
  unfold start_capture. rewrite Hfirst, Hcfg.
  set (c1 := with_requests reqs (reset_streams (reset_subdevices c))).
  destruct (start_tail_frame c1) as (_ & _ & Hs' & _ & _ & Hc' & Hd').
  cbv zeta in Hs', Hc', Hd'.
  set (c' := with_is_capturing true _) in *.
  cbn [fst snd].
  assert (streams c' = replicate (length (streams c)) None) as Hstreams.
  { rewrite Hs'. exact Hs. }
  split; [done|]. split; [exact Hc'|]. split; [|split; [exact Hstreams|split]].
  - eapply (open_subdevices_replicate_None (length (subdevices c))).
    rewrite Hd'. unfold c1. cbn [subdevices with_requests].
    rewrite Hd. by rewrite fmap_replicate.
  - by eapply max_fps_no_buffers.
  - intros env. unfold wait_all_streams. rewrite Hc'. cbn [negb].
    rewrite Hstreams. apply wait_loop_no_buffers.
Qed.

(** *** Which subdevices [configure_enabled_streams] leaves open *)

Lemma open_subdevices_handles c : open_subdevices c = omap id (handles c).
Proof.
  unfold open_subdevices, handles.
  induction (subdevices c) as [|[sh|] l IH]; [done| |exact IH].
  rewrite fmap_cons. cbn [fmap option_fmap option_map].
  change (handle sh :: omap (fmap handle) l =
          handle sh :: omap id (fmap (M := option) handle <$> l)).
  by rewrite IH.
Qed.

Lemma create_buffers_handles sms c :
  handles (create_buffers sms c).1 = handles c.
Proof.
  unfold handles. by destruct (create_buffers_frame sms c) as (_ & _ & -> & _).
Qed.

Lemma subdevice_handle_set_mode_handles i m ids c :
  handles (subdevice_handle_set_mode i m ids c) = handles c.
Proof.
  unfold handles, subdevice_handle_set_mode; simpl.
  apply list_eq. intros j. rewrite !list_lookup_fmap.
  destruct (decide (i = j)) as [->|Hne].
  - rewrite list_lookup_alter_eq. by destruct (subdevices c !! j) as [[sh|]|].
  - by rewrite list_lookup_alter_ne.
Qed.

Lemma open_subdevice_handles i m c :
  handles (open_subdevice i m c) = <[i := Some i]> (handles c).
Proof.
  unfold open_subdevice.
  set (c1 := with_subdevices _ (log_event (ev_claim_subdevice i) c)).
  set (c2 := if first_handle c1 is Some _ then c1
             else with_first_handle (Some i) c1).
  assert (handles c2 = <[i := Some i]> (handles c)) as H2.
  { unfold c2. destruct (first_handle c1); unfold handles; simpl;
      by rewrite list_fmap_insert. }
  pose proof (create_buffers_handles (sdm_streams m) c2) as H3.
  destruct (create_buffers (sdm_streams m) c2) as [c3 ids]; simpl in H3.
  by rewrite subdevice_handle_set_mode_handles, H3.
Qed.




(** C1 (fails).  Whenever a call of [configure_enabled_streams] leaves a
    subdevice open, a second call directly after it returns normally with
    every subdevice closed and every stream slot empty: the open subdevices
    after two calls are not those after one. *)
Theorem second_configure_closes_everything c :
  open_subdevices (configure_enabled_streams c).1 ≠ [] →
  (configure_enabled_streams (configure_enabled_streams c).1).2 = Ok () ∧
  open_subdevices (configure_enabled_streams (configure_enabled_streams c).1).1
    = [] ∧
  streams (configure_enabled_streams (configure_enabled_streams c).1).1 =
    replicate (length (streams (configure_enabled_streams c).1)) None ∧
  open_subdevices (configure_enabled_streams (configure_enabled_streams c).1).1
    ≠ open_subdevices (configure_enabled_streams c).1.
Proof.
  intros Hopen.
  destruct (configure_enabled_streams_again (configure_enabled_streams c).1)
    as (Hok & _ & Hs & Ho & _).
  { by apply configure_enabled_streams_handle. }
  split; [exact Hok|]. split; [exact Ho|]. split; [exact Hs|].
  rewrite Ho. by intros Heq.
Qed.

(** *** Buffers of a reachable session *)

Lemma create_buffers_shape sms c :
  (create_buffers sms c).2 = seq (length (heap c)) (length sms) ∧
  heap (create_buffers sms c).1 =
    heap c ++ replicate (length sms) stream_buffer_new ∧
  ∀ s id, streams (create_buffers sms c).1 !! s = Some (Some id) →
    streams c !! s = Some (Some id) ∨
    ∃ k sm, sms !! k = Some sm ∧ stream sm = s ∧
            id = (length (heap c) + k)%nat.
Proof.
  revert c. induction sms as [|sm sms IH]; intros c.
  { simpl. split; [done|]. split; [by rewrite app_nil_r|]. by left. }
  cbn [create_buffers].
  set (c1 := with_heap (heap c ++ [stream_buffer_new]) c).
  set (c2 := if enabled (requests c1 !!! stream sm)
             then with_streams (<[stream sm:=Some (length (heap c))]> (streams c1)) c1
             else c1).
  assert (heap c2 = heap c ++ [stream_buffer_new]) as Hh2
    by (unfold c2; by destruct (enabled _)).
  assert (∀ s id, streams c2 !! s = Some (Some id) →
            streams c !! s = Some (Some id) ∨
            (stream sm = s ∧ id = length (heap c))) as Hs2.
  { intros s id. unfold c2. destruct (enabled _); [|by left].
    cbn [streams with_streams c1 with_heap].
    intros [(-> & [= ->] & _)|[_ Hs]]%list_lookup_insert_Some;
      [by right|by left]. }
  destruct (IH c2) as (Hids & Hheap & Hstr).
  destruct (create_buffers sms c2) as [c3 ids]. cbn [fst snd] in *.
  rewrite Hh2, length_app in *. cbn [length] in *.
  rewrite Nat.add_1_r in *.
  split; [by rewrite Hids|]. split.
  { rewrite Hheap, <- app_assoc. done. }
  intros s id Hs. destruct (Hstr s id Hs) as [Hold|(k & sm' & Hk & Hsm & ->)].
  - destruct (Hs2 s id Hold) as [?|[<- ->]]; [by left|].
    right. exists 0%nat, sm. split; [done|]. split; [done|lia].
  - right. exists (S k), sm'. split; [done|]. split; [done|lia].
Qed.

Lemma set_mode_fold (f : stream_mode → stream_buffer → stream_buffer) d sms h0 :
  foldl (λ h p, alter (f p.1) p.2 h) (h0 ++ replicate (length sms) d)
    (zip sms (seq (length h0) (length sms))) =
  h0 ++ ((λ sm, f sm d) <$> sms).
Proof.
  revert h0. induction sms as [|sm sms IH]; intros h0; simpl.
  { by rewrite app_nil_r. }
  rewrite alter_app_r_alt by lia. rewrite Nat.sub_diag. simpl.
  specialize (IH (h0 ++ [f sm d])). rewrite length_app in IH. simpl in IH.
  rewrite Nat.add_1_r, <- !app_assoc in IH. exact IH.
Qed.

Lemma open_subdevice_shape i m c :
  heap (open_subdevice i m c) =
    heap c ++ ((λ sm, stream_buffer_set_mode sm stream_buffer_new)
                 <$> sdm_streams m) ∧
  ∀ s id, streams (open_subdevice i m c) !! s = Some (Some id) →
    streams c !! s = Some (Some id) ∨
    ∃ k sm, sdm_streams m !! k = Some sm ∧ stream sm = s ∧
            id = (length (heap c) + k)%nat.
Proof.
  unfold open_subdevice.
  set (c1 := with_subdevices _ (log_event (ev_claim_subdevice i) c)).
  set (c2 := if first_handle c1 is Some _ then c1
             else with_first_handle (Some i) c1).
  assert (heap c2 = heap c ∧ streams c2 = streams c) as [Hh2 Hs2]
    by (unfold c2; by destruct (first_handle c1)).
  destruct (create_buffers_shape (sdm_streams m) c2) as (Hids & Hheap & Hstr).
  destruct (create_buffers (sdm_streams m) c2) as [c3 ids]. cbn [fst snd] in *.
  rewrite Hh2, Hs2 in *. subst ids.
  unfold subdevice_handle_set_mode.
  cbn [heap streams with_heap with_subdevices log_event].
  rewrite Hheap. split; [apply set_mode_fold|exact Hstr].
Qed.

Lemma session_ok_ext c c' :
  heap c' = heap c → streams c' = streams c → requests c' = requests c →
  (is_Some (first_handle c) → is_Some (first_handle c')) →
  session_ok c → session_ok c'.
Proof.
  intros Hh Hs Hr Hf (Hz & Hb & Hp).
  unfold session_ok, heap_sized, slots_bound, negotiated.
  rewrite Hh, Hs, Hr. split; [exact Hz|]. split; [exact Hb|].
  intros Hpop. by apply Hf, Hp.
Qed.

Lemma session_ok_no_buffers n c :
  heap_sized c → streams c = replicate n None → session_ok c.
Proof.
  intros Hz Hs. split; [exact Hz|].
  split; [intros s id|intros (s & id & Hsid); revert Hsid];
    rewrite Hs; by intros [[=] _]%lookup_replicate.
Qed.

Lemma open_subdevice_ok i m c :
  select_mode (requests c) (Z.of_nat i) = Ok (Some m) →
  session_ok c → session_ok (open_subdevice i m c).
Proof.
  intros Hsel (Hz & Hb & _).
  destruct (open_subdevice_shape i m c) as [Hheap Hstr].
  destruct (open_subdevice_frame i m c) as (_ & Hr & Hf & _).
  split; [|split; [|by intros _]].
  - unfold heap_sized. rewrite Hheap. apply Forall_app. split; [exact Hz|].
    apply Forall_fmap, Forall_forall. intros sm _. apply set_mode_sized.
  - intros s id Hs. unfold negotiated. rewrite Hr, Hheap.
    destruct (Hstr s id Hs) as [Hold|(k & sm & Hk & Hsm & ->)].
    + destruct (Hb s id Hold) as (b & Hid & Hn). exists b.
      split; [by apply lookup_app_l_Some|exact Hn].
    + exists (stream_buffer_set_mode sm stream_buffer_new). split.
      * rewrite lookup_app_r by lia.
        replace (length (heap c) + k - length (heap c))%nat with k by lia.
        by rewrite list_lookup_fmap, Hk.
      * split; [exact Hsm|]. exists i, m. split; [exact Hsel|].
        by eapply list_elem_of_lookup_2.
Qed.

Lemma configure_loop_ok todo c :
  session_ok c → session_ok (configure_loop todo c).1.
Proof.
  revert c. induction todo as [|i todo IH]; intros c Hc; simpl; [done|].
  destruct (select_mode (requests c) (Z.of_nat i)) as [[m|]|e] eqn:Hsel;
    simpl; [|by apply IH|done].
  by apply IH, open_subdevice_ok.
Qed.

Lemma configure_enabled_streams_ok c :
  session_ok c → session_ok (configure_enabled_streams c).1.
Proof.
  intros (Hz & _). unfold configure_enabled_streams.
  destruct (reset_frame c) as (_ & _ & Hs & _ & _ & Hh & _).
  cbv zeta in Hs, Hh.
  set (c1 := reset_streams (reset_subdevices c)) in *.
  assert (heap_sized c1) as Hz1 by (unfold heap_sized; by rewrite Hh).
  assert (∀ c', session_ok c' → session_ok (fetch_calibration c')) as Hfetch.
  { intros c'. destruct (fetch_calibration_frame c')
      as (Hr' & Hs' & _ & Hf' & Hh' & _).
    apply session_ok_ext; try done. by rewrite Hf'. }
  destruct (first_handle c1).
  { apply Hfetch. by eapply session_ok_no_buffers. }
  destruct (enforce_interstream_constraints (requests c1)) as [reqs|e];
    [|by eapply session_ok_no_buffers].
  pose proof (configure_loop_ok (seq 0 (length (subdevices c1)))
                (with_requests reqs c1)) as Hl.
  destruct (configure_loop _ _) as [c2 [[]|e]]; cbn [fst] in *.
  - apply Hfetch, Hl. by eapply (session_ok_no_buffers _ (with_requests reqs c1)).
  - apply Hl. by eapply (session_ok_no_buffers _ (with_requests reqs c1)).
Qed.

Lemma start_capture_ok c : session_ok c → session_ok (start_capture c).1.
Proof.
  intros Hc. unfold start_capture.
  assert (∀ c1, session_ok c1 →
            session_ok (with_is_capturing true
              (for_each_subdevice start_streaming 0
                 (subdevices (log_event ev_set_stream_intent c1))
                 (log_event ev_set_stream_intent c1)))) as Htail.
  { intros c1. destruct (start_tail_frame c1) as (_ & Hr & Hs & Hf & Hh & _).
    apply session_ok_ext; try done. by rewrite Hf. }
  destruct (first_handle c); [by apply Htail|].
  pose proof (configure_enabled_streams_ok c Hc) as Hcfg.
  destruct (configure_enabled_streams c) as [c1 [[]|e]]; [|done].
  by apply Htail.
Qed.

Lemma same_shape_ok c c' :
  heap_only c c' → same_shape (heap c) (heap c') →
  session_ok c → session_ok c'.
Proof.
  intros [h ->] [Hlen Hsh] (Hz & Hb & Hp). cbn [heap with_heap] in *.
  split; [|split; [|exact Hp]].
  - unfold heap_sized. cbn [heap with_heap].
    apply Forall_lookup. intros j b' Hj.
    assert (j < length (heap c))%nat as Hlt
      by (rewrite <- Hlen; by eapply lookup_lt_Some).
    apply list_lookup_total_correct in Hj as <-.
    destruct (Hsh j) as [-> Hn]. apply Hn.
    apply (Forall_lookup_1 _ _ j _ Hz).
    by apply list_lookup_lookup_total_lt.
  - intros s id Hs. destruct (Hb s id Hs) as (b & Hid & Hn).
    exists (h !!! id). cbn [heap with_heap]. split.
    + apply list_lookup_lookup_total_lt. rewrite Hlen.
      by eapply lookup_lt_Some.
    + destruct (Hsh id) as [-> _].
      by rewrite (list_lookup_total_correct _ _ _ Hid).
Qed.

Lemma enable_requests_ok r c :
  first_handle c = None → session_ok c → session_ok (with_requests r c).
Proof.
  intros Hf (Hz & Hb & Hp). split; [exact Hz|]. split; [|exact Hp].
  intros s id Hs. destruct Hp as [x Hx]; [by exists s, id|congruence].
Qed.

Lemma run_call_ok k c c' :
  run_call k c = Some c' → session_ok c → session_ok c'.
Proof.
  destruct k; cbn [run_call]; intros Hrun Hc.
  - injection Hrun as <-. unfold enable_stream.
    destruct (first_handle c) eqn:Hf; [done|].
    case_decide; [done|]. by apply enable_requests_ok.
  - injection Hrun as <-. unfold enable_stream_preset.
    destruct (first_handle c) eqn:Hf; [done|].
    destruct (negb _); [done|]. by apply enable_requests_ok.
  - injection Hrun as <-. by apply configure_enabled_streams_ok.
  - injection Hrun as <-. by apply start_capture_ok.
  - injection Hrun as <-.
    destruct (stop_capture_frame c) as (_ & Hr & Hs & Hf & Hh & _).
    cbv zeta in Hr, Hs, Hf, Hh.
    revert Hc. apply session_ok_ext; try done.
    intros Hx. by rewrite <- Hf in Hx.
  - destruct (wait_all_streams env c) as [[[c1 env1] log1]|] eqn:Hw; [|done].
    injection Hrun as <-. revert Hc. unfold wait_all_streams in Hw.
    destruct (negb (is_capturing c)); [by injection Hw as <- _ _|].
    apply wait_loop_log in Hw as (Hh & Hm & _). by apply same_shape_ok.
  - injection Hrun as <-. revert Hc.
    destruct (deliver_all_heap_only b c) as [Hh Hm]. by apply same_shape_ok.
Qed.

Lemma run_calls_ok ks c c' :
  run_calls ks c = Some c' → session_ok c → session_ok c'.
Proof.
  revert c. induction ks as [|k ks IH]; intros c; simpl.
  - by intros [= <-].
  - destruct (run_call k c) as [c1|] eqn:Hk; [|done].
    intros Hrun Hc. eapply IH; [exact Hrun|]. by eapply run_call_ok.
Qed.

Lemma rs_camera_new_ok : session_ok rs_camera_new.
Proof.
  apply (session_ok_no_buffers RS_STREAM_NUM); [|done]. by constructor.
Qed.

(** C7.  [set_mode] leaves the three slots with the pixel size of the
    mode, frame number 0 and the updated flag cleared; every later buffer
    operation (the consumer's [update_image], the producer's store, frame
    number and exchange of back and middle) keeps the three slots at equal
    size, and so at the size of the mode.  In a session, after any sequence
    of calls and frame arrivals, every buffer has its three slots at the
    size of its mode. *)
Theorem set_mode_slots_equal_size (m : stream_mode) (b : stream_buffer) :
  (slots_sized (mode_size m) (stream_buffer_set_mode m b) ∧
   number (front (stream_buffer_set_mode m b)) = 0 ∧
   number (middle (stream_buffer_set_mode m b)) = 0 ∧
   number (back (stream_buffer_set_mode m b)) = 0 ∧
   updated (stream_buffer_set_mode m b) = false ∧
   mode (stream_buffer_set_mode m b) = m) ∧
  (∀ o b', equal_slots b' → equal_slots (run_buffer_op o b')) ∧
  (∀ os, slots_sized (mode_size m)
           (run_buffer_ops os (stream_buffer_set_mode m b)) ∧
         mode (run_buffer_ops os (stream_buffer_set_mode m b)) = m) ∧
  (∀ ks c, run_calls ks rs_camera_new = Some c →
           ∀ b', b' ∈ heap c →
                 slots_sized (mode_size (mode b')) b' ∧ equal_slots b').
Proof.
  split; [|split; [|split]].
  - split; [apply set_mode_sized|]. repeat split; reflexivity.
  - intros o b'. apply run_buffer_op_equal.
  - intros os. split.
    + apply run_buffer_ops_sized, set_mode_sized.
    + by rewrite run_buffer_ops_mode.
  - intros ks c Hrun b' Hb'.
    destruct (run_calls_ok _ _ _ Hrun rs_camera_new_ok) as (Hz & _).
    pose proof (proj1 (Forall_forall _ _) Hz b' Hb') as Hs.
    split; [exact Hs|]. exact (slots_sized_equal _ _ Hs).
Qed.


End SessionProperties.

(** ** The mode negotiation of the specification *)

Lemma select_mode_spec_no_requests info reqs i :
  Forall (λ r, enabled r = false) reqs →
  select_mode_spec info reqs i = Ok None.
Proof.
  intros Hreqs. unfold select_mode_spec.
  destruct (routed_requests info reqs i) as [|p wanted] eqn:Hr; [done|].
  assert (p ∈ routed_requests info reqs i) as Hp
    by (rewrite Hr; apply list_elem_of_here).
  unfold routed_requests in Hp.
  apply list_elem_of_filter in Hp as [[He _] Hp].
  apply elem_of_lookup_imap in Hp as (j & r & -> & Hj).
  apply (Forall_lookup_1 _ _ _ _ Hreqs) in Hj. simpl in He. congruence.
Qed.

(** ** The example scenario *)

Lemma second_configure_closes_everything_witness :
  let once := Scenario.configured Scenario.model in
  let twice := configure_enabled_streams (M := Scenario.model) once in
  (open_subdevices once = [0; 1]%nat ∧
   streams once = [Some 1; Some 0; None]%nat) ∧
  twice.2 = Ok () ∧
  open_subdevices twice.1 = [] ∧
  streams twice.1 = replicate (length (streams once)) None ∧
  open_subdevices twice.1 ≠ open_subdevices once.
Proof.
  split; [vm_compute; split; reflexivity|].
  apply (second_configure_closes_everything (M := Scenario.model)
           (Scenario.requested Scenario.model)).
  vm_compute. discriminate.
Defined.







Lemma start_capture_without_requests_witness :
  let c := Scenario.new Scenario.model in
  let started := (start_capture (M := Scenario.model) c).1 in
  first_handle c = None ∧
  Forall (λ r, enabled r = false) (requests c) ∧
  (start_capture (M := Scenario.model) c).2 = Ok () ∧
  is_capturing started = true ∧
  open_subdevices started = [] ∧
  streams started = replicate (length (streams c)) None ∧
  max_fps started = 0 ∧
  ∀ env, wait_all_streams env started = Some (started, env, []).
Proof.
  split; [reflexivity|]. split; [repeat constructor|].
  apply (start_capture_without_requests (M := Scenario.model)).
  - intros reqs i. apply select_mode_spec_no_requests.
  - intros reqs Hreqs. exists reqs. split; [reflexivity|exact Hreqs].
  - reflexivity.
  - repeat constructor.
Defined.


Lemma set_mode_slots_equal_size_witness :
  let b := stream_buffer_set_mode (M := Scenario.model) Buffers.vga_depth
             Buffers.filled in
  (slots_sized 75 b ∧ number (front b) = 0 ∧ number (middle b) = 0 ∧
   number (back b) = 0 ∧ updated b = false ∧ mode b = Buffers.vga_depth) ∧
  (equal_slots Buffers.filled ∧
   equal_slots (run_buffer_op op_publish Buffers.filled)) ∧
  (run_calls (M := Scenario.model) Scenario.configure_once
     (rs_camera_new (M := Scenario.model)) =
     Some (Scenario.configured Scenario.model) ∧
   ∀ b', b' ∈ heap (Scenario.configured Scenario.model) →
         slots_sized (mode_size (M := Scenario.model) (mode b')) b' ∧
         equal_slots b').
Proof.
  split; [|split].
  - apply (proj1 (set_mode_slots_equal_size (M := Scenario.model)
                    Buffers.vga_depth Buffers.filled)).
  - split; [by split|].
    apply (proj1 (proj2 (set_mode_slots_equal_size (M := Scenario.model)
                    Buffers.vga_depth Buffers.filled))).
    by split.
  - split; [vm_compute; reflexivity|].
    apply (proj2 (proj2 (proj2 (set_mode_slots_equal_size
             (M := Scenario.model) Buffers.vga_depth Buffers.filled)))
             Scenario.configure_once).
    vm_compute. reflexivity.
Defined.


(** * Further properties of [camera.cpp] *)

(** ** The triple buffer between the capture thread and the consumer *)

Lemma overwrite_full old written :
  length written = length old → overwrite old written = written.
Proof.
  intros Hl. unfold overwrite. rewrite Hl, drop_all, app_nil_r.
  apply take_ge. lia.
Qed.

(** X1.  The producer never touches the front slot, and a frame it publishes is
    handed over by the next [update_image] exactly once: that call returns
    true with the frame's pixels and number in front, the one after it
    returns false and changes nothing.  Of two frames published before the
    consumer looks, the second is delivered and the first is dropped. *)
Theorem produced_frame_reaches_front (w1 w2 : list byte) (n1 n2 : option Z)
    (b : stream_buffer) :
  front (produce (Some w1) n1 b) = front b ∧
  updated (produce (Some w1) n1 b) = true ∧
  (let b1 := (update_image (produce (Some w1) n1 b)).2 in
   (update_image (produce (Some w1) n1 b)).1 = true ∧
   pixels (front b1) = overwrite (pixels (back b)) w1 ∧
   number (front b1) = default (number (back b)) n1 ∧
   (length w1 = length (pixels (back b)) → pixels (front b1) = w1) ∧
   update_image b1 = (false, b1)) ∧
  (let b2 := (update_image (produce (Some w2) n2 (produce (Some w1) n1 b))).2 in
   (update_image (produce (Some w2) n2 (produce (Some w1) n1 b))).1 = true ∧
   pixels (front b2) = overwrite (pixels (middle b)) w2 ∧
   number (front b2) = default (number (middle b)) n2 ∧
   pixels (back b2) = overwrite (pixels (back b)) w1 ∧
   update_image b2 = (false, b2)).
Proof.
  unfold produce, update_image.
  destruct n1 as [k1|], n2 as [k2|]; simpl;
    (split; [done|]; split; [done|]; split;
     [repeat split; try done; intros Hl; by apply overwrite_full
     |repeat split; done]).
Qed.

Lemma produced_frame_parts (w : list byte) (n : option Z) (b : stream_buffer) :
  (update_image (produce (Some w) n b)).1 = true ∧
  pixels (front (update_image (produce (Some w) n b)).2) =
    overwrite (pixels (back b)) w ∧
  (length w = length (pixels (back b)) →
     pixels (front (update_image (produce (Some w) n b)).2) = w) ∧
  update_image (update_image (produce (Some w) n b)).2 =
    (false, (update_image (produce (Some w) n b)).2).
Proof.
  unfold produce, update_image. destruct n as [k|]; simpl;
    (repeat split; try done; intros Hl; by apply overwrite_full).
Qed.

(** ** The capture callback on the buffer store *)

Lemma alter_each_lookup (f : stream_buffer → stream_buffer) (ids : list nat)
    (h : list stream_buffer) :
  NoDup ids →
  (∀ j, j ∉ ids → foldl (λ h id, alter f id h) h ids !! j = h !! j) ∧
  (∀ id, id ∈ ids → foldl (λ h id, alter f id h) h ids !! id = f <$> h !! id).
Proof.
  intros Hnd. revert h. induction Hnd as [|i ids Hi Hnd IH]; intros h; simpl.
  { split; [done|]. intros id Hid. by apply not_elem_of_nil in Hid. }
  destruct (IH (alter f i h)) as [Hout Hin]. split.
  - intros j Hj. apply not_elem_of_cons in Hj as [Hne Hj].
    rewrite Hout by done. by rewrite list_lookup_alter_ne.
  - intros id [->|Hid]%elem_of_cons.
    + rewrite Hout by done. apply list_lookup_alter_eq.
    + rewrite Hin by done. rewrite list_lookup_alter_ne; [done|].
      intros ->. done.
Qed.

Lemma unpack_each_lookup (ids : list nat) (dest : list (list byte))
    (h : list stream_buffer) :
  NoDup ids →
  (∀ j, j ∉ ids →
        foldl (λ h p, alter (unpack_into p.2) p.1 h) h (zip ids dest) !! j =
          h !! j) ∧
  (∀ k n, ids !! k = Some n →
        foldl (λ h p, alter (unpack_into p.2) p.1 h) h (zip ids dest) !! n =
          (if dest !! k is Some w then unpack_into w else id) <$> h !! n).
Proof.
  intros Hnd. revert dest h.
  induction Hnd as [|i ids Hi Hnd IH]; intros dest h.
  { split; [done|]. intros k n Hk. done. }
  destruct dest as [|w dest]; simpl.
  { split; [done|]. intros k n Hk. by destruct (h !! n). }
  destruct (IH dest (alter (unpack_into w) i h)) as [Hout Hin]. split.
  - intros j Hj. apply not_elem_of_cons in Hj as [Hne Hj].
    rewrite Hout by done. by rewrite list_lookup_alter_ne.
  - intros [|k] n Hk; simpl in Hk.
    + injection Hk as <-. rewrite Hout by done. apply list_lookup_alter_eq.
    + rewrite (Hin k n Hk). rewrite list_lookup_alter_ne; [done|].
      intros ->. apply Hi. by eapply list_elem_of_lookup_2.
Qed.

(** One raw frame, as the callback registered by [start_streaming] handles
    it, for a capture state whose buffers are pairwise distinct. *)
Lemma capture_callback_lookup (s : capture_state) (frame : raw_frame)
    (h : list stream_buffer) :
  NoDup (cs_streams s) →
  length (capture_callback s frame h) = length h ∧
  (∀ j, j ∉ cs_streams s → capture_callback s frame h !! j = h !! j) ∧
  (∀ k id, cs_streams s !! k = Some id →
     capture_callback s frame h !! id =
       produce (unpacker (cs_mode s) frame !! k)
         ((λ decode, decode frame) <$> frame_number_decoder (cs_mode s))
       <$> h !! id) ∧
  (∀ j, front (capture_callback s frame h !!! j) = front (h !!! j)).
Proof.
  intros Hnd.
  assert (∀ j, j ∉ cs_streams s → capture_callback s frame h !! j = h !! j)
    as Hout.
  { intros j Hj. unfold capture_callback.
    rewrite (proj1 (alter_each_lookup publish_back _ _ Hnd)) by done.
    destruct (frame_number_decoder (cs_mode s)) as [decode|].
    - rewrite (proj1 (alter_each_lookup _ _ _ Hnd)) by done.
      by rewrite (proj1 (unpack_each_lookup _ _ _ Hnd)).
    - by rewrite (proj1 (unpack_each_lookup _ _ _ Hnd)). }
  assert (∀ k id, cs_streams s !! k = Some id →
     capture_callback s frame h !! id =
       produce (unpacker (cs_mode s) frame !! k)
         ((λ decode, decode frame) <$> frame_number_decoder (cs_mode s))
       <$> h !! id) as Hin.
  { intros k id Hk. unfold capture_callback, produce.
    assert (id ∈ cs_streams s) as Hid by (by eapply list_elem_of_lookup_2).
    rewrite (proj2 (alter_each_lookup publish_back _ _ Hnd)) by done.
    destruct (frame_number_decoder (cs_mode s)) as [decode|]; simpl.
    - rewrite (proj2 (alter_each_lookup _ _ _ Hnd)) by done.
      rewrite (proj2 (unpack_each_lookup _ _ _ Hnd) k id Hk).
      destruct (h !! id); [|done]. simpl.
      by destruct (unpacker (cs_mode s) frame !! k).
    - rewrite (proj2 (unpack_each_lookup _ _ _ Hnd) k id Hk).
      destruct (h !! id); [|done]. simpl.
      by destruct (unpacker (cs_mode s) frame !! k). }
  split; [apply (capture_callback_shape s frame h)|].
  split; [exact Hout|]. split; [exact Hin|].
  intros j. rewrite !list_lookup_total_alt.
  destruct (decide (j ∈ cs_streams s)) as [Hj|Hj].
  - apply list_elem_of_lookup_1 in Hj as [k Hk]. rewrite (Hin k j Hk).
    destruct (h !! j) as [b|]; [|done]. simpl. unfold produce.
    destruct (frame_number_decoder (cs_mode s)),
      (unpacker (cs_mode s) frame !! k); done.
  - by rewrite Hout.
Qed.

(** ** Construction and requests *)

Section SessionLaws.

Context {rs_intrinsics pose : Type} {M : camera_model rs_intrinsics pose}.
Implicit Types c : rs_camera rs_intrinsics pose.

Lemma max_subdevice_bounds (l : list subdevice_mode) (acc : Z) :
  acc ≤ foldl (λ acc m, Z.max acc (subdevice m)) acc l ∧
  ∀ m, m ∈ l → subdevice m ≤ foldl (λ acc m, Z.max acc (subdevice m)) acc l.
Proof.
  revert acc. induction l as [|m0 l IH]; intros acc; simpl.
  { split; [lia|]. intros m Hm. by apply not_elem_of_nil in Hm. }
  destruct (IH (Z.max acc (subdevice m0))) as [Hle Hall].
  split; [lia|]. intros m [->|Hm]%elem_of_cons; [lia|by apply Hall].
Qed.

(** X2.  A new session has one request and one stream slot per logical stream,
    no request enabled and no slot populated; it has at least one subdevice
    slot, all closed, and a slot for the subdevice of every mode of the
    catalog; no first handle, no calibration, not capturing. *)
Theorem rs_camera_new_has_slot_for_every_mode :
  length (requests rs_camera_new) = RS_STREAM_NUM ∧
  Forall (λ r, enabled r = false) (requests rs_camera_new) ∧
  streams rs_camera_new = replicate RS_STREAM_NUM None ∧
  (1 ≤ length (subdevices rs_camera_new))%nat ∧
  open_subdevices rs_camera_new = [] ∧
  (∀ m, m ∈ subdevice_modes camera_info → 0 ≤ subdevice m →
        (Z.to_nat (subdevice m) < length (subdevices rs_camera_new))%nat) ∧
  first_handle rs_camera_new = None ∧
  calibration_missing rs_camera_new = true ∧
  is_capturing rs_camera_new = false.
Proof.
  destruct (max_subdevice_bounds (subdevice_modes camera_info) 0) as [H0 Hall].
  fold max_subdevice in H0, Hall.
  unfold rs_camera_new; simpl.
  split; [by rewrite length_replicate|].
  split; [by apply Forall_replicate|]. split; [done|].
  rewrite length_replicate. split; [lia|].
  split; [by eapply (open_subdevices_replicate_None _ rs_camera_new)|].
  split; [|done]. intros m Hm Hpos. specialize (Hall m Hm). lia.
Qed.

Lemma enable_stream_unsupported s w h f fps c :
  first_handle c = None → stream_subdevices camera_info !!! s = -1 →
  enable_stream s w h f fps c = (c, Throw unsupported_stream).
Proof. intros Hf Hs. unfold enable_stream. rewrite Hf. by rewrite decide_True. Qed.

Lemma enable_stream_accepted s w h f fps c :
  first_handle c = None → stream_subdevices camera_info !!! s ≠ -1 →
  enable_stream s w h f fps c =
    (with_requests (<[s := mk_stream_request true w h f fps]> (requests c)) c,
     Ok ()).
Proof. intros Hf Hs. unfold enable_stream. rewrite Hf. by rewrite decide_False. Qed.

Lemma enable_stream_session s w h f fps c :
  (first_handle c = None ∧ stream_subdevices camera_info !!! s ≠ -1 ∧
   (enable_stream s w h f fps c).1 =
     with_requests (<[s := mk_stream_request true w h f fps]> (requests c)) c) ∨
  ((is_Some (first_handle c) ∨ stream_subdevices camera_info !!! s = -1) ∧
   (enable_stream s w h f fps c).1 = c).
Proof.
  destruct (first_handle c) as [x|] eqn:Hf.
  { right. split; [by left|].
    rewrite enable_stream_after_open; [done|]. by rewrite Hf. }
  destruct (decide (stream_subdevices camera_info !!! s = -1)) as [Hs|Hs].
  - right. split; [by right|]. by rewrite enable_stream_unsupported.
  - left. by rewrite enable_stream_accepted.
Qed.

(** X3.  [enable_stream] on a session without a first handle, for a stream the
    camera supports: the request is recorded in the stream's slot and
    nothing else changes.  Whatever the session, a second call for the same
    stream replaces the first, and calls for different streams can be made
    in either order. *)
Theorem enable_stream_last_call_wins c s w h f fps :
  (first_handle c = None → stream_subdevices camera_info !!! s ≠ -1 →
   (s < length (requests c))%nat →
     (enable_stream s w h f fps c).2 = Ok () ∧
     requests (enable_stream s w h f fps c).1 !! s =
       Some (mk_stream_request true w h f fps) ∧
     (∀ s', s' ≠ s → requests (enable_stream s w h f fps c).1 !! s' =
                      requests c !! s') ∧
     (enable_stream s w h f fps c).1 =
       with_requests (requests (enable_stream s w h f fps c).1) c) ∧
  (∀ w' h' f' fps',
     (enable_stream s w' h' f' fps' (enable_stream s w h f fps c).1).1 =
     (enable_stream s w' h' f' fps' c).1) ∧
  (∀ s' w' h' f' fps', s' ≠ s →
     (enable_stream s' w' h' f' fps' (enable_stream s w h f fps c).1).1 =
     (enable_stream s w h f fps (enable_stream s' w' h' f' fps' c).1).1).
Proof.
  split; [|split].
  - intros Hf Hs Hlt. rewrite enable_stream_accepted by done. cbn [fst snd].
    split; [done|]. split; [by apply list_lookup_insert_eq|].
    split; [|done]. intros s' Hne. by apply list_lookup_insert_ne.
  - intros w' h' f' fps'.
    destruct (enable_stream_session s w h f fps c)
      as [(Hf & Hs & ->)|(Hno & ->)]; [|done].
    rewrite !enable_stream_accepted by done. cbn [fst].
    unfold with_requests; simpl. by rewrite list_insert_insert_eq.
  - intros s' w' h' f' fps' Hne.
    destruct (enable_stream_session s w h f fps c)
      as [(Hf & Hs & Heq)|(Hno & Heq)];
      destruct (enable_stream_session s' w' h' f' fps' c)
        as [(Hf' & Hs' & Heq')|(Hno' & Heq')]; rewrite Heq, Heq'.
    + rewrite !enable_stream_accepted by done. cbn [fst].
      unfold with_requests; simpl. by rewrite list_insert_insert_ne.
    + rewrite Heq. destruct Hno' as [[x Hx]|Hs']; [congruence|].
      by rewrite enable_stream_unsupported.
    + destruct Hno as [[x Hx]|Hs]; [congruence|].
      by rewrite enable_stream_unsupported.
    + by rewrite Heq.
Qed.

(** X4.  [enable_stream_preset] with a preset that is enabled in the catalog
    does what [enable_stream] does with the preset's width, height, format
    and fps, provided the camera supports the stream; the preset call itself
    does not look at [stream_subdevices], so on a session without a first
    handle it records the preset also for a stream without a subdevice. *)
Theorem enable_stream_preset_as_enable_stream c s p :
  enabled ((presets camera_info !!! s) !!! p) = true →
  (stream_subdevices camera_info !!! s ≠ -1 →
     enable_stream_preset s p c =
       enable_stream s
         (req_width ((presets camera_info !!! s) !!! p))
         (req_height ((presets camera_info !!! s) !!! p))
         (req_format ((presets camera_info !!! s) !!! p))
         (req_fps ((presets camera_info !!! s) !!! p)) c) ∧
  (first_handle c = None →
     enable_stream_preset s p c =
       (with_requests (<[s := (presets camera_info !!! s) !!! p]> (requests c)) c,
        Ok ())).
Proof.
  intros He. unfold enable_stream_preset, enable_stream. rewrite He. simpl.
  split.
  - intros Hs. destruct (first_handle c); [done|].
    rewrite decide_False by done.
    destruct ((presets camera_info !!! s) !!! p) as [e w h f fps].
    simpl in He. by rewrite He.
  - by intros ->.
Qed.

(** ** Open subdevices and their buffers *)

Lemma list_alter_insert_same {A} (g : A → A) (i : nat) (x : A) (l : list A) :
  alter g i (<[i:=x]> l) = <[i:=g x]> l.
Proof.
  apply list_eq. intros k. destruct (decide (i = k)) as [->|Hne].
  - rewrite list_lookup_alter_eq.
    destruct (decide (k < length l)%nat) as [Hlt|Hge].
    + rewrite !list_lookup_insert_eq by lia. done.
    + rewrite !list_insert_ge by lia. rewrite lookup_ge_None_2 by lia. done.
  - by rewrite list_lookup_alter_ne, !list_lookup_insert_ne.
Qed.

Lemma open_subdevice_subdevices i m c :
  subdevices (open_subdevice i m c) =
    <[i := Some (mk_subdevice_handle i
                   (Some (mk_capture_state m
                            (seq (length (heap c)) (length (sdm_streams m)))))
                   false)]> (subdevices c).
Proof.
  unfold open_subdevice.
  set (c1 := with_subdevices _ (log_event (ev_claim_subdevice i) c)).
  set (c2 := if first_handle c1 is Some _ then c1
             else with_first_handle (Some i) c1).
  assert (heap c2 = heap c ∧
          subdevices c2 =
            <[i := Some (mk_subdevice_handle i None false)]> (subdevices c))
    as [Hh2 Hd2] by (unfold c2; by destruct (first_handle c1)).
  destruct (create_buffers_shape (sdm_streams m) c2) as (Hids & _).
  destruct (create_buffers_frame (sdm_streams m) c2) as (_ & _ & Hd3 & _).
  destruct (create_buffers (sdm_streams m) c2) as [c3 ids]. cbn [fst snd] in *.
  unfold subdevice_handle_set_mode.
  cbn [subdevices with_heap with_subdevices log_event].
  rewrite Hd3, Hd2, Hids, Hh2. by rewrite list_alter_insert_same.
Qed.

Lemma subdevices_ok_ext c c' :
  subdevices c' = subdevices c → heap c' = heap c → streams c' = streams c →
  (is_Some (first_handle c) → is_Some (first_handle c')) →
  (is_capturing c = true → is_capturing c' = true) →
  subdevices_ok c → subdevices_ok c'.
Proof.
  intros Hd Hh Hs Hf Hc (H1 & H2 & H3). unfold subdevices_ok.
  rewrite Hd, Hh, Hs. split; [|by split].
  intros i sh Hi. destruct (H1 i sh Hi) as (Hhd & Hfh & Hst & Hcs).
  split; [done|]. split; [by apply Hf|]. split; [|done].
  intros Hx. by apply Hc, Hst.
Qed.

Lemma subdevices_ok_closed n k c :
  subdevices c = replicate n None → streams c = replicate k None →
  subdevices_ok c.
Proof.
  intros Hd Hs. unfold subdevices_ok. rewrite Hd, Hs.
  split; [|split].
  - intros i sh [[=] _]%lookup_replicate.
  - intros i j sh sh' cs cs' id [[=] _]%lookup_replicate.
  - intros s id [[=] _]%lookup_replicate.
Qed.

Lemma capture_state_ok_app h h' cs :
  capture_state_ok h cs → capture_state_ok (h ++ h') cs.
Proof.
  intros (Hl & Hnd & Hk). split; [done|]. split; [done|].
  intros k id Hid. destruct (Hk k id Hid) as (b & Hb & Hm).
  exists b. split; [by apply lookup_app_l_Some|done].
Qed.

Lemma capture_state_ok_same_shape h h' cs :
  same_shape h h' → capture_state_ok h cs → capture_state_ok h' cs.
Proof.
  intros [Hlen Hsh] (Hl & Hnd & Hk). split; [done|]. split; [done|].
  intros k id Hid. destruct (Hk k id Hid) as (b & Hb & Hm).
  exists (h' !!! id). split.
  - apply list_lookup_lookup_total_lt. rewrite Hlen. by eapply lookup_lt_Some.
  - destruct (Hsh id) as [-> _].
    by rewrite (list_lookup_total_correct _ _ _ Hb).
Qed.

Lemma open_subdevice_subdevices_ok i m c :
  subdevices c !! i = Some None →
  subdevices_ok c → subdevices_ok (open_subdevice i m c).
Proof.
  intros Hi (H1 & H2 & H3).
  pose proof (open_subdevice_subdevices i m c) as Hd.
  destruct (open_subdevice_shape i m c) as [Hheap Hstr].
  destruct (open_subdevice_frame i m c) as ((_ & _ & Hfh) & _ & Hsome & Hcap & _).
  assert (i < length (subdevices c))%nat as Hlt by (by eapply lookup_lt_Some).
  set (ids := seq (length (heap c)) (length (sdm_streams m))) in *.
  set (new := mk_subdevice_handle i (Some (mk_capture_state m ids)) false) in *.
  assert (capture_state_ok (heap (open_subdevice i m c))
            (mk_capture_state m ids)) as Hnew.
  { split; [apply length_seq|]. split; [apply NoDup_seq|].
    intros k id [-> Hk]%lookup_seq. cbn [cs_mode cs_streams] in *.
    destruct (lookup_lt_is_Some_2 (sdm_streams m) k Hk) as [sm Hsm].
    exists (stream_buffer_set_mode sm stream_buffer_new).
    rewrite Hheap, lookup_app_r by lia.
    replace (length (heap c) + k - length (heap c))%nat with k by lia.
    by rewrite list_lookup_fmap, Hsm. }
  assert (∀ j sh, subdevices (open_subdevice i m c) !! j = Some (Some sh) →
            (j = i ∧ sh = new) ∨ (j ≠ i ∧ subdevices c !! j = Some (Some sh)))
    as Hcases.
  { intros j sh. rewrite Hd.
    intros [(-> & [= <-] & _)|[Hne Hj]]%list_lookup_insert_Some;
      [by left|by right]. }
  assert (∀ j sh cs id, subdevices c !! j = Some (Some sh) →
            state sh = Some cs → id ∈ cs_streams cs →
            (id < length (heap c))%nat) as Hold.
  { intros j sh cs id Hj Hcs Hid.
    destruct (H1 j sh Hj) as (_ & _ & _ & cs' & Hcs' & _ & _ & Hk).
    assert (cs' = cs) as -> by congruence.
    apply list_elem_of_lookup_1 in Hid as [k Hid].
    destruct (Hk k id Hid) as (b & Hb & _). by eapply lookup_lt_Some. }
  split; [|split].
  - intros j sh Hj. destruct (Hcases j sh Hj) as [[-> ->]|[Hne Hj']].
    + split; [done|]. split; [done|]. split; [done|]. by exists (mk_capture_state m ids).
    + destruct (H1 j sh Hj') as (Hhd & _ & Hst & cs & Hcs & Hok).
      split; [done|]. split; [done|]. split; [by rewrite Hcap|].
      exists cs. split; [done|]. rewrite Hheap. by apply capture_state_ok_app.
  - intros j1 j2 sh sh' cs cs' id Hj1 Hj2 Hcs Hcs' Hid Hid'.
    destruct (Hcases j1 sh Hj1) as [[-> ->]|[Hne1 Hj1']],
      (Hcases j2 sh' Hj2) as [[-> ->]|[Hne2 Hj2']]; [done| | |by eapply H2].
    + injection Hcs as <-. cbn [cs_streams] in Hid.
      apply elem_of_seq in Hid. pose proof (Hold _ _ _ _ Hj2' Hcs' Hid'). lia.
    + injection Hcs' as <-. cbn [cs_streams] in Hid'.
      apply elem_of_seq in Hid'. pose proof (Hold _ _ _ _ Hj1' Hcs Hid). lia.
  - intros s id Hs. destruct (Hstr s id Hs) as [Hs'|(k & sm & Hk & _ & ->)].
    + destruct (H3 s id Hs') as (j & sh & cs & Hj & Hcs & Hid).
      exists j, sh, cs. split; [|done]. rewrite Hd.
      rewrite list_lookup_insert_ne; [done|]. intros ->. congruence.
    + exists i, new, (mk_capture_state m ids).
      split; [by rewrite Hd, list_lookup_insert_eq|]. split; [done|].
      cbn [cs_streams]. apply elem_of_seq.
      apply lookup_lt_Some in Hk. lia.
Qed.

Lemma configure_loop_subdevices_ok n a c :
  (∀ j, (a ≤ j < length (subdevices c))%nat → subdevices c !! j = Some None) →
  (a + n ≤ length (subdevices c))%nat →
  subdevices_ok c → subdevices_ok (configure_loop (seq a n) c).1.
Proof.
  revert a c. induction n as [|n IH]; intros a c Hclosed Hn Hc; simpl; [done|].
  destruct (select_mode (requests c) (Z.of_nat a)) as [[m|]|e]; simpl;
    [|apply IH; [intros j Hj; apply Hclosed|..]; (done || lia)|done].
  apply IH.
  - intros j Hj. rewrite open_subdevice_subdevices in *.
    rewrite length_insert in Hj.
    rewrite list_lookup_insert_ne by lia. apply Hclosed. lia.
  - rewrite open_subdevice_subdevices, length_insert. lia.
  - apply open_subdevice_subdevices_ok; [|done]. apply Hclosed. lia.
Qed.

Lemma configure_enabled_streams_subdevices_ok c :
  subdevices_ok (configure_enabled_streams c).1.
Proof.
  unfold configure_enabled_streams.
  destruct (reset_frame c) as (_ & _ & Hs & Hd & _). cbv zeta in Hs, Hd.
  set (c1 := reset_streams (reset_subdevices c)) in *.
  assert (∀ c', subdevices_ok c' → subdevices_ok (fetch_calibration c'))
    as Hfetch.
  { intros c'. destruct (fetch_calibration_frame c')
      as (_ & Hs' & Hd' & Hf' & Hh' & Hc').
    apply subdevices_ok_ext; try done; by rewrite ?Hf', ?Hc'. }
  destruct (first_handle c1).
  { apply Hfetch. by eapply subdevices_ok_closed. }
  destruct (enforce_interstream_constraints (requests c1)) as [reqs|e];
    [|by eapply subdevices_ok_closed].
  pose proof (configure_loop_subdevices_ok (length (subdevices c1)) 0
                (with_requests reqs c1)) as Hl.
  cbn [subdevices with_requests] in Hl.
  assert (subdevices_ok (configure_loop (seq 0 (length (subdevices c1)))
                           (with_requests reqs c1)).1) as Hok.
  { apply Hl; [|lia|by eapply (subdevices_ok_closed _ _ (with_requests reqs c1))].
    intros j Hj. rewrite Hd. apply lookup_replicate_2.
    rewrite Hd, length_replicate in Hj. lia. }
  destruct (configure_loop _ _) as [c2 [[]|e]]; cbn [fst] in *;
    [by apply Hfetch|done].
Qed.

Lemma set_streaming_subdevices_ok b c c' :
  subdevices c' = (fmap (M := option) (set_streaming b) <$> subdevices c) →
  heap c' = heap c → streams c' = streams c →
  first_handle c' = first_handle c → is_capturing c' = b →
  subdevices_ok c → subdevices_ok c'.
Proof.
  intros Hd Hh Hs Hf Hc (H1 & H2 & H3).
  assert (∀ i sh', subdevices c' !! i = Some (Some sh') →
            ∃ sh, subdevices c !! i = Some (Some sh) ∧
                  sh' = set_streaming b sh) as Hback.
  { intros i sh'. rewrite Hd, list_lookup_fmap.
    destruct (subdevices c !! i) as [[sh|]|]; simpl; intros [=]. by exists sh. }
  unfold subdevices_ok. rewrite Hh, Hs, Hf, Hc. split; [|split].
  - intros i sh' Hi. destruct (Hback i sh' Hi) as (sh & Hi' & ->).
    destruct (H1 i sh Hi') as (Hhd & Hfh & _ & Hcs).
    split; [done|]. split; [done|]. split; [by intros ?|done].
  - intros i j sh1 sh2 cs cs' id Hi Hj Hcs Hcs' Hid Hid'.
    destruct (Hback i sh1 Hi) as (sh & Hi' & ->),
      (Hback j sh2 Hj) as (sh' & Hj' & ->).
    exact (H2 i j sh sh' cs cs' id Hi' Hj' Hcs Hcs' Hid Hid').
  - intros s id Hsid. destruct (H3 s id Hsid) as (i & sh & cs & Hi & Hcs & Hid).
    exists i, (set_streaming b sh), cs. split; [|done].
    by rewrite Hd, list_lookup_fmap, Hi.
Qed.

Lemma same_shape_subdevices_ok c c' :
  heap_only c c' → same_shape (heap c) (heap c') →
  subdevices_ok c → subdevices_ok c'.
Proof.
  intros [h ->] Hsh (H1 & H2 & H3). cbn [heap with_heap] in Hsh.
  split; [|by split]. intros i sh Hi.
  destruct (H1 i sh Hi) as (Hhd & Hfh & Hst & cs & Hcs & Hok).
  split; [done|]. split; [done|]. split; [done|]. exists cs. split; [done|].
  by eapply capture_state_ok_same_shape.
Qed.

Lemma start_capture_subdevices_ok c :
  subdevices_ok c → subdevices_ok (start_capture c).1.
Proof.
  intros Hc. unfold start_capture.
  assert (∀ c1, subdevices_ok c1 →
            subdevices_ok (with_is_capturing true
              (for_each_subdevice start_streaming 0
                 (subdevices (log_event ev_set_stream_intent c1))
                 (log_event ev_set_stream_intent c1)))) as Htail.
  { intros c1. destruct (start_tail_frame c1) as (_ & _ & Hs & Hf & Hh & Hcap & Hd).
    by apply (set_streaming_subdevices_ok true). }
  destruct (first_handle c); [by apply Htail|].
  pose proof (configure_enabled_streams_subdevices_ok c) as Hcfg.
  destruct (configure_enabled_streams c) as [c1 [[]|e]]; [|done].
  by apply Htail.
Qed.

Lemma run_call_subdevices_ok k c c' :
  run_call k c = Some c' → subdevices_ok c → subdevices_ok c'.
Proof.
  destruct k; cbn [run_call]; intros Hrun Hc.
  - injection Hrun as <-.
    destruct (enable_stream_session s w h f fps c) as [(_ & _ & ->)|(_ & ->)];
      [|done]. revert Hc. by apply subdevices_ok_ext.
  - injection Hrun as <-. unfold enable_stream_preset.
    destruct (first_handle c); [done|]. destruct (negb _); [done|].
    revert Hc. by apply subdevices_ok_ext.
  - injection Hrun as <-. apply configure_enabled_streams_subdevices_ok.
  - injection Hrun as <-. by apply start_capture_subdevices_ok.
  - injection Hrun as <-.
    destruct (stop_capture_frame c) as (_ & _ & Hs & Hf & Hh & Hcap & Hd).
    revert Hc. by apply (set_streaming_subdevices_ok false).
  - destruct (wait_all_streams env c) as [[[c1 env1] log1]|] eqn:Hw; [|done].
    injection Hrun as <-. revert Hc. unfold wait_all_streams in Hw.
    destruct (negb (is_capturing c)); [by injection Hw as <- _ _|].
    apply wait_loop_log in Hw as (Hh & Hm & _).
    by apply same_shape_subdevices_ok.
  - injection Hrun as <-. revert Hc.
    destruct (deliver_all_heap_only b c) as [Hh Hm].
    by apply same_shape_subdevices_ok.
Qed.

Lemma run_calls_subdevices_ok ks c c' :
  run_calls ks c = Some c' → subdevices_ok c → subdevices_ok c'.
Proof.
  revert c. induction ks as [|k ks IH]; intros c; simpl.
  - by intros [= <-].
  - destruct (run_call k c) as [c1|] eqn:Hk; [|done].
    intros Hrun Hc. eapply IH; [exact Hrun|].
    by eapply run_call_subdevices_ok.
Qed.

Lemma rs_camera_new_subdevices_ok : subdevices_ok rs_camera_new.
Proof.
  by apply (subdevices_ok_closed (Z.to_nat (max_subdevice + 1)) RS_STREAM_NUM).
Qed.




(** X8.  The hand-over of one frame in a reachable session.  When the subdevice
    that owns the buffer of a populated stream slot is streaming and a raw
    frame arrives on it, the next [update_image] on that stream returns
    true and leaves in front the bytes the unpacker stored for that stream
    (the whole image when they fill the slot, whose size is that of the
    stream's mode); the [update_image] after it returns false. *)
Theorem delivered_frame_is_consumed ks c s id i sh cs k frame w :
  run_calls ks rs_camera_new = Some c →
  streams c !! s = Some (Some id) →
  subdevices c !! i = Some (Some sh) → state sh = Some cs →
  cs_streams cs !! k = Some id →
  streaming sh = true →
  unpacker (cs_mode cs) frame !! k = Some w →
  let before := heap c !!! id in
  let polled := poll id [[(i, frame)]] c in
  length (pixels (back before)) = mode_size (mode before) ∧
  polled.1.1 = true ∧
  pixels (front (heap polled.1.2 !!! id)) = overwrite (pixels (back before)) w ∧
  (length w = mode_size (mode before) →
     pixels (front (heap polled.1.2 !!! id)) = w) ∧
  updated (heap polled.1.2 !!! id) = false ∧
  (poll id [] polled.1.2).1.1 = false.
Proof.
  intros Hrun Hs Hi Hcs Hk Hst Hw before polled.
  destruct (run_calls_subdevices_ok _ _ _ Hrun rs_camera_new_subdevices_ok)
    as (H1 & _).
  destruct (run_calls_ok _ _ _ Hrun rs_camera_new_ok) as (Hz & _).
  destruct (H1 i sh Hi) as (_ & _ & _ & cs' & Hcs' & _ & Hnd & Hpos).
  assert (cs' = cs) as -> by congruence.
  destruct (Hpos k id Hk) as (b & Hid & _).
  assert (before = b) as Hb
    by (unfold before; by apply list_lookup_total_correct).
  assert (length (pixels (back b)) = mode_size (mode b)) as Hsize.
  { apply (Forall_lookup_1 _ _ _ _ Hz) in Hid. apply Hid. }
  assert (deliver c (i, frame) = with_heap (capture_callback cs frame (heap c)) c)
    as Hdel.
  { unfold deliver. cbn [fst snd]. by rewrite Hi, Hst, Hcs. }
  destruct (capture_callback_lookup cs frame (heap c) Hnd)
    as (Hlen & _ & Hin & _).
  specialize (Hin k id Hk). rewrite Hid, Hw in Hin. simpl in Hin.
  assert (id < length (capture_callback cs frame (heap c)))%nat as Hlt
    by (rewrite Hlen; by eapply lookup_lt_Some).
  pose proof (produced_frame_parts w
    ((λ decode, decode frame) <$> frame_number_decoder (cs_mode cs)) b)
    as (Hr & Hpx & Hfull & Hagain).
  assert (polled =
          ((update_image (produce (Some w)
              ((λ decode, decode frame) <$> frame_number_decoder (cs_mode cs))
              b)).1,
           with_heap
             (<[id := (update_image (produce (Some w)
                  ((λ decode, decode frame) <$>
                     frame_number_decoder (cs_mode cs)) b)).2]>
                (capture_callback cs frame (heap c))) c,
           [])) as ->.
  { subst polled. unfold poll.
    change (foldl deliver c (default [] (head [[(i, frame)]])))
      with (deliver c (i, frame)).
    rewrite Hdel. cbn [heap with_heap].
    rewrite (list_lookup_total_correct _ _ _ Hin).
    by destruct (update_image _). }
  cbn [fst snd heap with_heap].
  rewrite list_lookup_total_insert_eq by done.
  split; [by rewrite Hb|]. split; [exact Hr|]. rewrite Hb.
  split; [exact Hpx|]. split; [intros Hl; apply Hfull; congruence|].
  assert (updated (update_image (produce (Some w)
            ((λ decode, decode frame) <$> frame_number_decoder (cs_mode cs))
            b)).2 = false) as Hflag.
  { unfold update_image at 1 in Hagain.
    by destruct (updated (update_image _).2). }
  split; [exact Hflag|].
  unfold poll. cbn [head default foldl tail heap with_heap fst snd].
  rewrite list_lookup_total_insert_eq by done.
  by rewrite Hagain.
Qed.

(** ** What later calls keep *)

Lemma configure_enabled_streams_requests c :
  is_Some (first_handle c) →
  requests (configure_enabled_streams c).1 = requests c.
Proof.
  intros [x Hx]. unfold configure_enabled_streams.
  destruct (reset_frame c) as (_ & Hr & _ & _ & Hf & _). cbv zeta in Hr, Hf.
  set (c1 := reset_streams (reset_subdevices c)) in *.
  rewrite Hf, Hx. cbn [fst].
  by destruct (fetch_calibration_frame c1) as (-> & _).
Qed.

Lemma run_call_keeps_first_handle k c c' :
  is_Some (first_handle c) → run_call k c = Some c' →
  first_handle c' = first_handle c ∧ requests c' = requests c.
Proof.
  intros Hf. destruct k; cbn [run_call]; intros Hrun.
  - injection Hrun as <-. by rewrite enable_stream_after_open.
  - injection Hrun as <-. by rewrite enable_stream_preset_after_open.
  - injection Hrun as <-. split.
    + by destruct (configure_enabled_streams_again c Hf) as (_ & _ & _ & _ & ->).
    + by apply configure_enabled_streams_requests.
  - injection Hrun as <-. unfold start_capture.
    destruct Hf as [x Hx]. rewrite Hx.
    destruct (start_tail_frame c) as (_ & Hr & _ & Hfh & _).
    cbv zeta in Hr, Hfh. cbn [fst]. split; [by rewrite Hfh|exact Hr].
  - injection Hrun as <-.
    destruct (stop_capture_frame c) as (_ & Hr & _ & Hfh & _).
    cbv zeta in Hr, Hfh. split; [exact Hfh|exact Hr].
  - destruct (wait_all_streams env c) as [[[c1 env1] log1]|] eqn:Hw; [|done].
    injection Hrun as <-.
    by apply wait_all_streams_heap_only in Hw as [h ->].
  - injection Hrun as <-.
    by destruct (deliver_all_heap_only b c) as [[h ->] _].
Qed.

(** X9.  The first handle is never cleared and the requests are frozen with it:
    from a session that has a first handle, no sequence of calls and frame
    arrivals changes the first handle or any request, and [enable_stream]
    keeps being refused, also after a later [configure_enabled_streams] has
    closed every subdevice. *)
Theorem first_handle_is_never_cleared ks c c' :
  is_Some (first_handle c) →
  run_calls ks c = Some c' →
  first_handle c' = first_handle c ∧
  requests c' = requests c ∧
  ∀ s w h f fps,
    enable_stream s w h f fps c' = (c', Throw streams_cannot_be_reconfigured).
Proof.
  intros Hf Hrun.
  assert (first_handle c' = first_handle c ∧ requests c' = requests c)
    as [Hfh Hr].
  { revert c Hf Hrun. induction ks as [|k ks IH]; intros c Hf; simpl.
    - by intros [= <-].
    - destruct (run_call k c) as [c1|] eqn:Hk; [|done]. intros Hrun.
      destruct (run_call_keeps_first_handle _ _ _ Hf Hk) as [Hf1 Hr1].
      destruct (IH c1) as [Hf2 Hr2]; [by rewrite Hf1|done|].
      split; congruence. }
  split; [done|]. split; [done|].
  intros s w h f fps. apply enable_stream_after_open. by rewrite Hfh.
Qed.

(** X10.  A calibration, once held, is kept: from a session whose intrinsics
    table is not empty, no sequence of calls and frame arrivals replaces the
    calibration or calls [retrieve_calibration] again. *)
Theorem calibration_is_kept ks c c' :
  calibration_missing c = false →
  run_calls ks c = Some c' →
  calib c' = calib c ∧ calibration_fetches c' = calibration_fetches c.
Proof.
  revert c. induction ks as [|k ks IH]; intros c Hm; simpl.
  - by intros [= <-].
  - destruct (run_call k c) as [c1|] eqn:Hk; [|done]. intros Hrun.
    assert (quiet c c1) as (Hk1 & Hn1 & _).
    { destruct (run_call_fetch _ _ _ Hk) as [Hq|(c2 & Hq & _ & Hne & _)];
        [done|].
      destruct (fetch_calibration_step c2) as [[Hs|(_ & _ & Hm2 & _)] _];
        [done|].
      rewrite (calibration_missing_quiet _ _ Hq) in Hm2. congruence. }
    destruct (IH c1) as [Hk2 Hn2]; [|done|split; congruence].
    unfold calibration_missing in *. by rewrite Hk1.
Qed.

(** ** Starting and stopping *)

Lemma configure_loop_not_streaming todo c :
  (∀ i sh, subdevices c !! i = Some (Some sh) → streaming sh = false) →
  ∀ i sh, subdevices (configure_loop todo c).1 !! i = Some (Some sh) →
          streaming sh = false.
Proof.
  revert c. induction todo as [|a todo IH]; intros c Hc; simpl; [done|].
  destruct (select_mode (requests c) (Z.of_nat a)) as [[m|]|e]; simpl;
    [|by apply IH|done].
  apply IH. intros i sh. rewrite open_subdevice_subdevices.
  intros [(-> & [= <-] & _)|[_ Hi]]%list_lookup_insert_Some; [done|].
  by eapply Hc.
Qed.

Lemma configure_enabled_streams_not_streaming c :
  is_capturing (configure_enabled_streams c).1 = is_capturing c ∧
  ∀ i sh, subdevices (configure_enabled_streams c).1 !! i = Some (Some sh) →
          streaming sh = false.
Proof.
  unfold configure_enabled_streams.
  destruct (reset_frame c) as (_ & _ & _ & Hd & _ & _ & Hc). cbv zeta in Hd, Hc.
  set (c1 := reset_streams (reset_subdevices c)) in *.
  assert (∀ i sh, subdevices c1 !! i = Some (Some sh) → streaming sh = false)
    as Hclosed.
  { intros i sh. rewrite Hd. by intros [[=] _]%lookup_replicate. }
  assert (∀ c', (is_capturing c' = is_capturing c ∧
                 ∀ i sh, subdevices c' !! i = Some (Some sh) →
                         streaming sh = false) →
                is_capturing (fetch_calibration c') = is_capturing c ∧
                ∀ i sh, subdevices (fetch_calibration c') !! i = Some (Some sh) →
                        streaming sh = false) as Hfetch.
  { intros c'. by destruct (fetch_calibration_frame c')
      as (_ & _ & -> & _ & _ & ->). }
  destruct (first_handle c1); [by apply Hfetch|].
  destruct (enforce_interstream_constraints (requests c1)) as [reqs|e];
    [|done].
  pose proof (configure_loop_not_streaming (seq 0 (length (subdevices c1)))
                (with_requests reqs c1) Hclosed) as Hl.
  destruct (configure_loop_frame (seq 0 (length (subdevices c1)))
              (with_requests reqs c1)) as (_ & _ & Hcap & _).
  cbn [is_capturing with_requests] in Hcap.
  destruct (configure_loop _ _) as [c2 [[]|e]]; cbn [fst] in *.
  - apply Hfetch. split; [congruence|done].
  - split; [congruence|done].
Qed.

(** X11.  A [start_capture] that throws has done what the
    [configure_enabled_streams] it called did, and nothing more: the session
    had no first handle, the exception is the one of the configuration, the
    capturing flag is what it was, and no subdevice is streaming, whether or
    not the configuration left some open. *)
Theorem start_capture_failure_starts_nothing c e :
  (start_capture c).2 = Throw e →
  first_handle c = None ∧
  start_capture c = configure_enabled_streams c ∧
  is_capturing (start_capture c).1 = is_capturing c ∧
  ∀ i sh, subdevices (start_capture c).1 !! i = Some (Some sh) →
          streaming sh = false.
Proof.
  intros Hthrow.
  assert (first_handle c = None ∧ start_capture c = configure_enabled_streams c)
    as [Hf Heq].
  { revert Hthrow. unfold start_capture.
    destruct (first_handle c); [done|].
    by destruct (configure_enabled_streams c) as [c1 [[]|e']]. }
  split; [done|]. split; [done|]. rewrite Heq.
  apply configure_enabled_streams_not_streaming.
Qed.


(** X13.  [stop_capture] always returns normally.  It clears the capturing flag
    and the streaming flag of every open subdevice and closes none of them;
    requests, stream slots, buffers, calibration and first handle are kept,
    so the intrinsics of a stream are still there; a [wait_all_streams]
    after it returns at once; and a second [stop_capture] changes nothing
    but the log. *)
Theorem stop_capture_keeps_subdevices_open c :
  (stop_capture c).2 = Ok () ∧
  is_capturing (stop_capture c).1 = false ∧
  subdevices (stop_capture c).1 =
    (fmap (M := option) (set_streaming false) <$> subdevices c) ∧
  open_subdevices (stop_capture c).1 = open_subdevices c ∧
  (∀ i sh, subdevices (stop_capture c).1 !! i = Some (Some sh) →
           streaming sh = false) ∧
  requests (stop_capture c).1 = requests c ∧
  streams (stop_capture c).1 = streams c ∧
  heap (stop_capture c).1 = heap c ∧
  calib (stop_capture c).1 = calib c ∧
  first_handle (stop_capture c).1 = first_handle c ∧
  (∀ s, get_stream_intrinsics s (stop_capture c).1 = get_stream_intrinsics s c) ∧
  (∀ env, wait_all_streams env (stop_capture c).1 =
            Some ((stop_capture c).1, env, [])) ∧
  subdevices (stop_capture (stop_capture c).1).1 = subdevices (stop_capture c).1.
Proof.
  destruct (stop_capture_frame c) as ((Hk & _) & Hr & Hs & Hf & Hh & Hc & Hd).
  cbv zeta in *.
  split; [done|]. split; [done|]. split; [done|].
  split; [by apply (open_subdevices_set_streaming false)|].
  split.
  { intros i sh. rewrite Hd, list_lookup_fmap.
    destruct (subdevices c !! i) as [[sh0|]|]; simpl; intros [=]. by subst. }
  split; [done|]. split; [done|]. split; [done|]. split; [done|].
  split; [done|]. split.
  { intros s. unfold get_stream_intrinsics. by rewrite Hs, Hh, Hk. }
  split.
  { intros env. unfold wait_all_streams. by rewrite Hc. }
  destruct (stop_capture_frame (stop_capture c).1) as (_ & _ & _ & _ & _ & _ & Hd').
  cbv zeta in Hd'. rewrite Hd', Hd, <- list_fmap_compose.
  apply list_fmap_ext. by intros ? [sh|].
Qed.

(** ** Which stream slots a configuration fills *)

Lemma create_buffers_slots sms c s :
  (∃ id, streams (create_buffers sms c).1 !! s = Some (Some id)) ↔
  (∃ id, streams c !! s = Some (Some id)) ∨
  ((s < length (streams c))%nat ∧ enabled (requests c !!! s) = true ∧
   ∃ sm, sm ∈ sms ∧ stream sm = s).
Proof.
  revert c. induction sms as [|sm sms IH]; intros c.
  { simpl. split; [by left|].
    by intros [?|(_ & _ & sm & ?%elem_of_nil & _)]. }
  cbn [create_buffers].
  set (c1 := with_heap (heap c ++ [stream_buffer_new]) c).
  set (c2 := if enabled (requests c1 !!! stream sm)
             then with_streams (<[stream sm:=Some (length (heap c))]> (streams c1)) c1
             else c1).
  specialize (IH c2).
  destruct (create_buffers sms c2) as [c3 ids]. cbn [fst] in *.
  rewrite IH. clear IH.
  assert (requests c2 = requests c) as ->
    by (unfold c2; by destruct (enabled _)).
  assert (length (streams c2) = length (streams c)) as ->.
  { unfold c2. destruct (enabled _); [|done].
    cbn [streams with_streams c1 with_heap]. by rewrite length_insert. }
  assert (∀ P : Prop, (∃ sm', sm' ∈ sm :: sms ∧ stream sm' = s) ↔
            stream sm = s ∨ ∃ sm', sm' ∈ sms ∧ stream sm' = s) as Hcons.
  { intros _. split.
    - intros (sm' & [->|?]%elem_of_cons & ?); [by left|right; eauto].
    - intros [?|(sm' & ? & ?)]; [exists sm|exists sm'];
        (split; [|done]); [by left|by right]. }
  rewrite (Hcons True). clear Hcons.
  unfold c2. change (requests c1) with (requests c).
  destruct (enabled (requests c !!! stream sm)) eqn:He.
  - cbn [streams with_streams c1 with_heap]. split.
    + intros [[id [(<- & _ & Hlt)|[_ Hs]]%list_lookup_insert_Some]|(? & ? & ?)].
      * right. by eauto.
      * left. by eauto.
      * right. by eauto.
    + intros [[id Hs]|(Hlt & Hen & [<-|Hin])].
      * left. destruct (decide (stream sm = s)) as [<-|Hne].
        -- exists (length (heap c)). rewrite list_lookup_insert_eq; [done|].
           by eapply lookup_lt_Some.
        -- exists id. by rewrite list_lookup_insert_ne.
      * left. exists (length (heap c)). by rewrite list_lookup_insert_eq.
      * right. by eauto.
  - change (streams c1) with (streams c). split.
    + intros [?|(? & ? & ?)]; [by left|right; by eauto].
    + intros [?|(Hlt & Hen & [<-|Hin])]; [by left| |right; by eauto].
      pose proof (eq_trans (eq_sym He) Hen). discriminate.
Qed.

Lemma open_subdevice_slots i m c s :
  (∃ id, streams (open_subdevice i m c) !! s = Some (Some id)) ↔
  (∃ id, streams c !! s = Some (Some id)) ∨
  ((s < length (streams c))%nat ∧ enabled (requests c !!! s) = true ∧
   ∃ sm, sm ∈ sdm_streams m ∧ stream sm = s).
Proof.
  unfold open_subdevice.
  set (c1 := with_subdevices _ (log_event (ev_claim_subdevice i) c)).
  set (c2 := if first_handle c1 is Some _ then c1
             else with_first_handle (Some i) c1).
  assert (requests c2 = requests c ∧ streams c2 = streams c) as [Hr2 Hs2]
    by (unfold c2; by destruct (first_handle c1)).
  pose proof (create_buffers_slots (sdm_streams m) c2 s) as Hb.
  destruct (create_buffers (sdm_streams m) c2) as [c3 ids]. cbn [fst] in *.
  rewrite Hr2, Hs2 in Hb. exact Hb.
Qed.

Lemma configure_loop_slots n a c s :
  (configure_loop (seq a n) c).2 = Ok () →
  (∃ id, streams (configure_loop (seq a n) c).1 !! s = Some (Some id)) ↔
  (∃ id, streams c !! s = Some (Some id)) ∨
  ((s < length (streams c))%nat ∧ enabled (requests c !!! s) = true ∧
   ∃ i m sm, (a ≤ i < a + n)%nat ∧
             select_mode (requests c) (Z.of_nat i) = Ok (Some m) ∧
             sm ∈ sdm_streams m ∧ stream sm = s).
Proof.
  revert a c. induction n as [|n IH]; intros a c; cbn [seq configure_loop].
  { intros _. split; [by left|]. intros [?|(_ & _ & i & _ & _ & ? & _)]; [done|lia]. }
  destruct (select_mode (requests c) (Z.of_nat a)) as [[m|]|e] eqn:Hsel;
    [| |done].
  - intros Hok. rewrite (IH _ _ Hok).
    destruct (open_subdevice_frame a m c) as (_ & Hr & _ & _ & _ & Hl).
    cbv zeta in Hr, Hl. rewrite Hr, Hl, open_subdevice_slots. split.
    + intros [[?|(? & ? & sm & ? & ?)]|(? & ? & i & m' & sm & ? & ? & ? & ?)].
      * by left.
      * right. split; [done|]. split; [done|].
        exists a, m, sm. split; [lia|done].
      * right. split; [done|]. split; [done|].
        exists i, m', sm. split; [lia|done].
    + intros [?|(? & ? & i & m' & sm & Hi & Hm' & ? & ?)]; [by left; left|].
      destruct (decide (i = a)) as [->|Hne].
      * left. right. split; [done|]. split; [done|].
        exists sm. rewrite Hsel in Hm'. by injection Hm' as <-.
      * right. split; [done|]. split; [done|].
        exists i, m', sm. split; [lia|done].
  - intros Hok. rewrite (IH _ _ Hok). split.
    + intros [?|(? & ? & i & m' & sm & ? & ? & ? & ?)]; [by left|].
      right. split; [done|]. split; [done|].
      exists i, m', sm. split; [lia|done].
    + intros [?|(? & ? & i & m' & sm & Hi & Hm' & ? & ?)]; [by left|].
      right. split; [done|]. split; [done|].
      exists i, m', sm. split; [|done].
      destruct (decide (i = a)) as [->|Hne]; [congruence|lia].
Qed.

(** X14.  After a [configure_enabled_streams] that negotiated and returned
    normally, a stream slot holds a buffer exactly when the stream is enabled
    in the requests as [enforce_interstream_constraints] left them and is one
    of the streams of a mode selected for some subdevice; what the slots held
    before plays no part. *)
Theorem configured_slots_are_the_enabled_covered_streams c reqs s :
  first_handle c = None →
  enforce_interstream_constraints (requests c) = Ok reqs →
  (configure_enabled_streams c).2 = Ok () →
  (∃ id, streams (configure_enabled_streams c).1 !! s = Some (Some id)) ↔
  (s < length (streams c))%nat ∧ enabled (reqs !!! s) = true ∧
  covered reqs (length (subdevices c)) s.
Proof.
  intros Hf He. unfold configure_enabled_streams.
  destruct (reset_frame c) as (_ & Hr & Hs & Hd & Hf1 & _). cbv zeta in *.
  set (c1 := reset_streams (reset_subdevices c)) in *.
  rewrite Hf1, Hf, Hr, He.
  pose proof (configure_loop_slots (length (subdevices c1)) 0
                (with_requests reqs c1) s) as Hloop.
  destruct (configure_loop _ _) as [c2 [[]|e]]; [|done].
  intros _. cbn [fst snd] in *.
  destruct (fetch_calibration_frame c2) as (_ & -> & _).
  rewrite (Hloop eq_refl). cbn [streams requests with_requests].
  rewrite Hs, Hd, !length_replicate. unfold covered. split.
  - intros [[id [[=] _]%lookup_replicate]|(? & ? & i & m & sm & ? & ? & ? & ?)].
    split; [done|]. split; [done|]. exists i, m, sm. split; [lia|done].
  - intros (? & ? & i & m & sm & ? & ? & ? & ?). right.
    split; [done|]. split; [done|]. exists i, m, sm. split; [lia|done].
Qed.

(** ** The first handle *)

Lemma configure_loop_first_handle n a c :
  let lowest c := match first_handle c with
    | None => ∀ j, j ∈ handles c → j = None
    | Some f => handles c !! f = Some (Some f) ∧
                ∀ j, (j < f)%nat → handles c !! j = Some None
    end in
  (∀ j, (a ≤ j)%nat → is_Some (handles c !! j) → handles c !! j = Some None) →
  (a + n ≤ length (subdevices c))%nat →
  lowest c → lowest (configure_loop (seq a n) c).1.
Proof.
  intros lowest. revert a c.
  induction n as [|n IH]; intros a c Hhigh Hlen Hlow; cbn [seq configure_loop];
    [done|].
  destruct (select_mode (requests c) (Z.of_nat a)) as [[m|]|e]; cbn [fst];
    [| |done].
  - apply IH.
    + intros j Hj. rewrite open_subdevice_handles.
      rewrite list_lookup_insert_ne by lia.
      apply Hhigh. lia.
    + destruct (open_subdevice_frame a m c) as (_ & _ & _ & _ & -> & _). lia.
    + assert (a < length (handles c))%nat as Ha
        by (unfold handles; rewrite length_fmap; lia).
      unfold lowest in *. rewrite open_subdevice_handles.
      assert (first_handle (open_subdevice a m c) =
                if first_handle c is Some f then Some f else Some a) as ->.
      { unfold open_subdevice.
        set (c1 := with_subdevices _ (log_event (ev_claim_subdevice a) c)).
        set (c2 := if first_handle c1 is Some _ then c1
                   else with_first_handle (Some a) c1).
        destruct (create_buffers_frame (sdm_streams m) c2)
          as (_ & _ & _ & Hf3 & _).
        cbv zeta in Hf3.
        destruct (create_buffers (sdm_streams m) c2) as [c3 ids].
        cbn [fst] in Hf3.
        unfold subdevice_handle_set_mode.
        cbn [first_handle with_heap with_subdevices log_event].
        rewrite Hf3. unfold c2, c1.
        cbn [first_handle with_heap with_subdevices log_event].
        destruct (first_handle c) eqn:Hfc;
          cbn [first_handle with_first_handle with_subdevices log_event];
          by rewrite ?Hfc. }
      destruct (first_handle c) as [f|].
      * destruct Hlow as [Hf Hbelow].
        assert (f < a)%nat.
        { destruct (decide (f < a)%nat) as [|Hge]; [done|].
          assert (handles c !! f = Some None) as Hn
            by (apply Hhigh; [lia|by rewrite Hf]).
          rewrite Hn in Hf. done. }
        split.
        -- by rewrite list_lookup_insert_ne by lia.
        -- intros j Hj. rewrite list_lookup_insert_ne by lia. by apply Hbelow.
      * split; [by rewrite list_lookup_insert_eq|].
        intros j Hj. rewrite list_lookup_insert_ne by lia.
        destruct (lookup_lt_is_Some_2 (handles c) j) as [o Ho]; [lia|].
        rewrite Ho. f_equal. apply Hlow. by eapply list_elem_of_lookup_2.
  - apply IH; [intros j Hj; apply Hhigh; lia|lia|done].
Qed.

(** X15.  After [configure_enabled_streams] on a session without a first handle,
    whether it returned or threw, the first handle is that of the open
    subdevice with the lowest index: without a first handle no subdevice is
    open, and with first handle [f] subdevice [f] is open under the handle
    [f] and every subdevice below it is closed. *)
Theorem first_handle_is_lowest_open_subdevice c :
  first_handle c = None →
  match first_handle (configure_enabled_streams c).1 with
  | None => open_subdevices (configure_enabled_streams c).1 = []
  | Some f =>
      handles (configure_enabled_streams c).1 !! f = Some (Some f) ∧
      ∀ j, (j < f)%nat → handles (configure_enabled_streams c).1 !! j = Some None
  end.
Proof.
  intros Hf.
  assert (∀ c', (∀ j, j ∈ handles c' → j = None) → open_subdevices c' = [])
    as Hnone.
  { intros c' Hall. unfold open_subdevices, handles in *.
    induction (subdevices c') as [|[sh|] l IH]; [done| |].
    - specialize (Hall (Some (handle sh))). simpl in Hall.
      discriminate Hall. by left.
    - simpl. apply IH. intros j Hj. apply Hall. simpl. by right. }
  assert (∀ c1, subdevices c1 = replicate (length (subdevices c)) None →
            ∀ j, j ∈ handles c1 → j = None) as Hclosed.
  { intros c1 Hd j. unfold handles. rewrite Hd, fmap_replicate. simpl.
    by intros [-> _]%elem_of_replicate. }
  unfold configure_enabled_streams.
  destruct (reset_frame c) as (_ & _ & _ & Hd & Hf1 & _). cbv zeta in *.
  set (c1 := reset_streams (reset_subdevices c)) in *.
  assert (∀ c', match first_handle c' with
            | None => ∀ j, j ∈ handles c' → j = None
            | Some f => handles c' !! f = Some (Some f) ∧
                        ∀ j, (j < f)%nat → handles c' !! j = Some None
            end →
            match first_handle c' with
            | None => open_subdevices c' = []
            | Some f => handles c' !! f = Some (Some f) ∧
                        ∀ j, (j < f)%nat → handles c' !! j = Some None
            end) as Hfin.
  { intros c'. destruct (first_handle c'); [done|]. apply Hnone. }
  assert (∀ c', match first_handle c' with
            | None => ∀ j, j ∈ handles c' → j = None
            | Some f => handles c' !! f = Some (Some f) ∧
                        ∀ j, (j < f)%nat → handles c' !! j = Some None
            end →
            match first_handle (fetch_calibration c') with
            | None => open_subdevices (fetch_calibration c') = []
            | Some f => handles (fetch_calibration c') !! f = Some (Some f) ∧
                        ∀ j, (j < f)%nat →
                             handles (fetch_calibration c') !! j = Some None
            end) as Hfetch.
  { intros c' Hc'. apply Hfin in Hc'.
    destruct (fetch_calibration_frame c') as (_ & _ & Hd' & Hf' & _).
    unfold handles, open_subdevices in *. by rewrite Hf', Hd'. }
  rewrite Hf1, Hf.
  destruct (enforce_interstream_constraints (requests c1)) as [reqs|e];
    cbn [fst].
  2:{ rewrite Hf1, Hf. apply Hnone, Hclosed, Hd. }
  pose proof (configure_loop_first_handle (length (subdevices c1)) 0
                (with_requests reqs c1)) as Hloop.
  cbv zeta in Hloop.
  assert (handles (with_requests reqs c1) = handles c1) as Hh by done.
  rewrite Hh in Hloop.
  cbn [first_handle subdevices with_requests] in Hloop.
  rewrite Hf1, Hf in Hloop.
  specialize (Hloop).
  assert (∀ j, j ∈ handles c1 → j = None) as Hc1 by apply Hclosed, Hd.
  destruct (configure_loop _ _) as [c2 [[]|e]]; cbn [fst] in *.
  - apply Hfetch, Hloop; [|lia|done].
    intros j _ [o Ho]. rewrite Ho. f_equal. apply Hc1.
    by eapply list_elem_of_lookup_2.
  - apply Hfin, Hloop; [|lia|done].
    intros j _ [o Ho]. rewrite Ho. f_equal. apply Hc1.
    by eapply list_elem_of_lookup_2.
Qed.

(** ** The calls made to the transport *)

Lemma stop_all_log (l : list (option subdevice_handle)) c :
  hw_log (foldl (λ c o, if o is Some sh then (stop_streaming sh c).2 else c)
            c l) =
  hw_log c ++ (ev_stop_streaming <$> omap (fmap handle) l).
Proof.
  revert c. induction l as [|[sh|] l IH]; intros c; simpl.
  - by rewrite app_nil_r.
  - rewrite IH. simpl. by rewrite <- app_assoc.
  - apply IH.
Qed.

Lemma for_each_subdevice_log f ev
    (Hf : ∀ sh c, ∃ sh', f sh c = (sh', log_event (ev (handle sh)) c))
    (l : list (option subdevice_handle)) i c :
  hw_log (for_each_subdevice f i l c) =
  hw_log c ++ (ev <$> omap (fmap handle) l).
Proof.
  revert i c. induction l as [|[sh|] l IH]; intros i c; simpl.
  - by rewrite app_nil_r.
  - destruct (Hf sh c) as [sh' ->]. rewrite IH. simpl.
    by rewrite <- app_assoc.
  - apply IH.
Qed.

Lemma create_buffers_log sms c :
  hw_log (create_buffers sms c).1 = hw_log c.
Proof.
  revert c. induction sms as [|sm sms IH]; intros c; [done|].
  cbn [create_buffers].
  set (c1 := with_heap (heap c ++ [stream_buffer_new]) c).
  set (c2 := if enabled (requests c1 !!! stream sm)
             then with_streams (<[stream sm:=Some (length (heap c))]> (streams c1)) c1
             else c1).
  specialize (IH c2). destruct (create_buffers sms c2) as [c3 ids].
  cbn [fst] in *. rewrite IH. unfold c2. by destruct (enabled _).
Qed.

Lemma configure_loop_log todo c :
  (configure_loop todo c).2 = Ok () →
  hw_log (configure_loop todo c).1 =
    hw_log c ++ flat_map (open_events (requests c)) todo.
Proof.
  revert c. induction todo as [|a todo IH]; intros c;
    cbn [configure_loop flat_map].
  { by rewrite app_nil_r. }
  unfold open_events at 1.
  destruct (select_mode (requests c) (Z.of_nat a)) as [[m|]|e]; [| |done].
  - intros Hok. rewrite (IH _ Hok).
    destruct (open_subdevice_frame a m c) as (_ & -> & _).
    assert (hw_log (open_subdevice a m c) =
              hw_log c ++ [ev_claim_subdevice a;
                           ev_set_mode a (sdm_width m) (sdm_height m)
                             (sdm_format m) (sdm_fps m)]) as ->.
    { unfold open_subdevice.
      set (c1 := with_subdevices _ (log_event (ev_claim_subdevice a) c)).
      set (c2 := if first_handle c1 is Some _ then c1
                 else with_first_handle (Some a) c1).
      pose proof (create_buffers_log (sdm_streams m) c2) as Hl.
      destruct (create_buffers (sdm_streams m) c2) as [c3 ids].
      cbn [fst] in Hl. unfold subdevice_handle_set_mode.
      cbn [hw_log with_heap with_subdevices log_event]. rewrite Hl.
      unfold c2, c1. destruct (first_handle _);
        cbn [hw_log with_first_handle with_subdevices log_event];
        by rewrite <- app_assoc. }
    by rewrite <- app_assoc.
  - intros Hok. by rewrite (IH _ Hok).
Qed.

(** X16.  The transport calls of a [configure_enabled_streams] that negotiated
    and returned normally, in order: one [stop_streaming] for every subdevice
    that was open, then for every subdevice with a selected mode, by rising
    index, [claim_subdevice] followed by [set_mode] with that mode, and last
    [retrieve_calibration] if the calibration was missing and a subdevice was
    opened. *)
Theorem configure_enabled_streams_transport_calls c reqs :
  first_handle c = None →
  enforce_interstream_constraints (requests c) = Ok reqs →
  (configure_enabled_streams c).2 = Ok () →
  hw_log (configure_enabled_streams c).1 =
    hw_log c ++ (ev_stop_streaming <$> open_subdevices c) ++
    flat_map (open_events reqs) (seq 0 (length (subdevices c))) ++
    (if calibration_missing c &&
        bool_decide (is_Some (first_handle (configure_enabled_streams c).1))
     then [ev_retrieve_calibration] else []).
Proof.
  intros Hf He. unfold configure_enabled_streams.
  destruct (reset_frame c) as ((Hk & _) & Hr & _ & Hd & Hf1 & _).
  cbv zeta in *.
  assert (hw_log (reset_streams (reset_subdevices c)) =
            hw_log c ++ (ev_stop_streaming <$> open_subdevices c)) as Hlog.
  { unfold reset_streams, reset_subdevices.
    cbn [hw_log with_streams with_subdevices]. apply stop_all_log. }
  set (c1 := reset_streams (reset_subdevices c)) in *.
  rewrite Hf1, Hf, Hr, He.
  pose proof (configure_loop_log (seq 0 (length (subdevices c1)))
                (with_requests reqs c1)) as Hloop.
  destruct (configure_loop_frame (seq 0 (length (subdevices c1)))
              (with_requests reqs c1)) as ((Hk2 & _) & _).
  destruct (configure_loop _ _) as [c2 [[]|e]]; [|done].
  intros _. cbn [fst snd] in *. specialize (Hloop eq_refl).
  cbn [hw_log requests with_requests] in Hloop.
  cbn [calib with_requests] in Hk2.
  rewrite Hlog, Hd, length_replicate, <- app_assoc in Hloop.
  destruct (fetch_calibration_frame c2) as (_ & _ & _ & -> & _).
  assert (calibration_missing c2 = calibration_missing c) as Hm
    by (unfold calibration_missing; by rewrite Hk2, Hk).
  unfold fetch_calibration. rewrite Hm.
  destruct (calibration_missing c && _).
  - cbn [hw_log with_calib log_event]. rewrite Hloop.
    by rewrite <- !app_assoc.
  - by rewrite Hloop, app_nil_r.
Qed.

(** X17.  The transport calls of starting, stopping and tearing down: a
    [start_capture] that does not configure calls [set_stream_intent] and
    then [start_streaming] on every open subdevice, by rising index;
    [stop_capture] calls [stop_streaming] on every open subdevice and on no
    other; the destructor stops every open subdevice once, in an order that
    is not fixed, and leaves no subdevice behind. *)
Theorem open_subdevices_are_started_and_stopped c :
  (is_Some (first_handle c) →
     hw_log (start_capture c).1 =
       hw_log c ++ ev_set_stream_intent ::
                   (ev_start_streaming <$> open_subdevices c)) ∧
  hw_log (stop_capture c).1 =
    hw_log c ++ (ev_stop_streaming <$> open_subdevices c) ∧
  (∃ stops, hw_log (rs_camera_destroy c) = hw_log c ++ stops ∧
            stops ≡ₚ ev_stop_streaming <$> open_subdevices c) ∧
  subdevices (rs_camera_destroy c) = [].
Proof.
  split; [|split; [|split; [|done]]].
  - intros [x Hx]. unfold start_capture. rewrite Hx. cbn [fst].
    cbn [hw_log with_is_capturing].
    rewrite (for_each_subdevice_log start_streaming ev_start_streaming)
      by (intros sh c'; by eexists).
    cbn [hw_log subdevices log_event]. by rewrite <- app_assoc.
  - unfold stop_capture. cbn [fst hw_log with_is_capturing].
    by rewrite (for_each_subdevice_log stop_streaming ev_stop_streaming)
      by (intros sh c'; by eexists).
  - eexists. split; [|done].
    unfold rs_camera_destroy. cbn [hw_log with_subdevices].
    apply stop_all_log.
Qed.

(** ** Waiting for a frame that does not come *)

Lemma deliver_buffer_kept c0 c (b : batch) id i :
  sole_producer i id c0 → (∀ ev, ev ∈ b → ev.1 ≠ i) →
  buffer_kept id c0 c → buffer_kept id c0 (foldl deliver c b).
Proof.
  intros Hown. revert c. induction b as [|ev b IH]; intros c Hb Hk; [done|].
  cbn [foldl]. apply IH; [intros ev' ?; apply Hb; by right|].
  destruct Hk as [Hd Hh]. unfold deliver. rewrite Hd.
  destruct (subdevices c0 !! ev.1) as [[sh|]|] eqn:Hsh; [|done..].
  destruct (streaming sh); [|done].
  destruct (state sh) as [cs|] eqn:Hcs; [|done].
  destruct (Hown _ _ _ Hsh Hcs) as [Hnd Hnot].
  destruct (capture_callback_lookup cs ev.2 (heap c) Hnd) as (_ & Hother & _).
  split; [exact Hd|]. cbn [heap with_heap].
  rewrite Hother; [done|]. apply Hnot, Hb. by left.
Qed.

Lemma poll_buffer_kept c0 c id' env id i :
  sole_producer i id c0 → updated (heap c0 !!! id) = false →
  starved i env → buffer_kept id c0 c →
  buffer_kept id c0 (poll id' env c).1.2 ∧
  (id' = id → (poll id' env c).1.1 = false).
Proof.
  intros Hown Hidle Henv Hk. unfold poll.
  assert (buffer_kept id c0 (foldl deliver c (default [] (head env))))
    as [Hd Hh].
  { apply (deliver_buffer_kept c0 c _ id i Hown); [|done].
    destruct env as [|b env]; simpl; [by intros ? ?%elem_of_nil|].
    intros ev Hev. apply (Henv b ev); [by left|done]. }
  set (c1 := foldl deliver c (default [] (head env))) in *.
  assert (heap c1 !!! id = heap c0 !!! id) as Htot
    by (by rewrite !list_lookup_total_alt, Hh).
  destruct (decide (id' = id)) as [->|Hne].
  - unfold update_image. rewrite Htot, Hidle. cbn [fst snd].
    split; [|done]. split; [exact Hd|]. cbn [heap with_heap].
    rewrite <- Hh, <- Htot.
    destruct (heap c1 !! id) as [x|] eqn:Hx.
    + rewrite list_lookup_insert_eq by (by eapply lookup_lt_Some).
      f_equal. by apply list_lookup_total_correct.
    + apply lookup_ge_None. rewrite length_insert. by apply lookup_ge_None.
  - destruct (update_image (heap c1 !!! id')) as [r b']. cbn [fst snd].
    split; [|done]. split; [exact Hd|]. cbn [heap with_heap].
    by rewrite list_lookup_insert_ne.
Qed.

Lemma starved_tail i (b : batch) env : starved i (b :: env) → starved i env.
Proof. intros H b' ev Hb' Hev. apply (H b' ev); [by right|done]. Qed.

Lemma spin_starved c0 c s id i env :
  sole_producer i id c0 → updated (heap c0 !!! id) = false →
  starved i env → buffer_kept id c0 c → spin s id env c = None.
Proof.
  intros Hown Hidle. revert c.
  induction env as [|b env IH]; intros c Henv Hk; cbn [spin].
  - destruct (poll_buffer_kept c0 c id [] id i Hown Hidle Henv Hk) as [_ Hr].
    destruct (poll id [] c) as [[r c1] env1]. cbn [fst snd] in Hr.
    by rewrite (Hr eq_refl).
  - destruct (poll_buffer_kept c0 c id (b :: env) id i Hown Hidle Henv Hk)
      as [Hk1 Hr].
    destruct (poll id (b :: env) c) as [[r c1] env1]. cbn [fst snd] in Hr, Hk1.
    rewrite (Hr eq_refl). rewrite (IH c1); [done| |done].
    by eapply starved_tail.
Qed.

Lemma spin_buffer_kept c0 c s id' id i env c' env' log :
  sole_producer i id c0 → updated (heap c0 !!! id) = false →
  starved i env → buffer_kept id c0 c →
  spin s id' env c = Some (c', env', log) →
  buffer_kept id c0 c' ∧ starved i env'.
Proof.
  intros Hown Hidle. revert c log.
  induction env as [|b env IH]; intros c log Henv Hk; cbn [spin].
  - destruct (poll_buffer_kept c0 c id' [] id i Hown Hidle Henv Hk) as [Hk1 _].
    destruct (poll_heap_only id' [] c) as (_ & _ & He).
    destruct (poll id' [] c) as [[r c1] env1]. cbn [fst snd] in *.
    destruct r; [|done]. intros [= <- <- <-]. by subst env1.
  - destruct (poll_buffer_kept c0 c id' (b :: env) id i Hown Hidle Henv Hk)
      as [Hk1 _].
    destruct (poll_heap_only id' (b :: env) c) as (_ & _ & He).
    destruct (poll id' (b :: env) c) as [[r c1] env1]. cbn [fst snd tail] in *.
    pose proof (starved_tail _ _ _ Henv) as Henv1.
    destruct r.
    + intros [= <- <- <-]. by subst env1.
    + destruct (spin s id' env c1) as [[[c2 env2] log2]|] eqn:Hs; [|done].
      intros [= <- <- <-]. by eapply IH.
Qed.

Lemma wait_loop_starved c0 c maxFps s0 slots id i env :
  sole_producer i id c0 → updated (heap c0 !!! id) = false →
  stream_fps c0 id = maxFps → Some id ∈ slots →
  starved i env → buffer_kept id c0 c →
  wait_loop maxFps s0 slots env c = None.
Proof.
  intros Hown Hidle Hfps. revert s0 env c.
  induction slots as [|[id'|] slots IH]; intros s0 env c Hin Henv Hk;
    cbn [wait_loop].
  - by apply elem_of_nil in Hin.
  - assert (stream_fps c id = maxFps) as Hfps'.
    { unfold stream_fps in *. destruct Hk as [_ Hh].
      by rewrite list_lookup_total_alt, Hh, <- list_lookup_total_alt. }
    destruct (decide (id' = id)) as [->|Hne].
    { rewrite decide_True by done.
      by rewrite (spin_starved c0 c s0 id i env). }
    assert (Some id ∈ slots) as Hin'.
    { apply elem_of_cons in Hin as [[=]|?]; [congruence|done]. }
    case_decide.
    + destruct (spin s0 id' env c) as [[[c1 env1] log1]|] eqn:Hs; [|done].
      destruct (spin_buffer_kept c0 c s0 id' id i env _ _ _ Hown Hidle Henv Hk Hs)
        as [Hk1 Henv1].
      by rewrite (IH _ _ _ Hin' Henv1 Hk1).
    + destruct (poll_buffer_kept c0 c id' env id i Hown Hidle Henv Hk)
        as [Hk1 _].
      destruct (poll_heap_only id' env c) as (_ & _ & He).
      destruct (poll id' env c) as [[r c1] env1]. cbn [fst snd] in *.
      rewrite (IH _ _ c1 Hin'); [done| |done].
      subst env1. destruct env; [done|]. by eapply starved_tail.
  - apply IH; [|done..].
    by apply elem_of_cons in Hin as [[=]|?].
Qed.

(** X18.  [wait_all_streams] does not return while a fastest stream is starved:
    in a capturing session reached by calls, if stream [s] runs at the
    highest requested rate, its buffer holds no frame that was not yet taken,
    and no frame arrives on the subdevice that fills this buffer, whatever
    arrives on the other subdevices, then the call waits forever. *)
Theorem wait_all_streams_waits_for_the_fastest_stream ks c s id i sh cs env :
  run_calls ks rs_camera_new = Some c →
  is_capturing c = true →
  streams c !! s = Some (Some id) →
  stream_fps c id = max_fps c →
  updated (heap c !!! id) = false →
  subdevices c !! i = Some (Some sh) → state sh = Some cs →
  id ∈ cs_streams cs →
  starved i env →
  wait_all_streams env c = None.
Proof.
  intros Hrun Hcap Hs Hfps Hidle Hi Hcs Hid Henv.
  pose proof (run_calls_subdevices_ok _ _ _ Hrun rs_camera_new_subdevices_ok)
    as (Hopen & Huniq & _).
  assert (sole_producer i id c) as Hown.
  { intros j sh' cs' Hj Hcs'. split.
    - destruct (Hopen _ _ Hj) as (_ & _ & _ & cs0 & Hcs0 & _ & Hnd & _).
      rewrite Hcs' in Hcs0. by injection Hcs0 as <-.
    - intros Hne Hin. apply Hne.
      exact (Huniq j i sh' sh cs' cs id Hj Hi Hcs' Hcs Hin Hid). }
  unfold wait_all_streams. rewrite Hcap. cbn [negb].
  apply (wait_loop_starved c c (max_fps c) 0%nat (streams c) id i env);
    try done.
  by eapply list_elem_of_lookup_2.
Qed.

(** ** The buffers a configuration hands out *)



End SessionLaws.

(** ** The laws on the two-stream camera *)

Lemma produced_frame_reaches_front_witness :
  length [x0a; x0b] = length (pixels (back Buffers.drained)) ∧
  pixels (front (update_image
                   (produce (Some [x0a; x0b]) (Some 9) Buffers.drained)).2) =
    [x0a; x0b].
Proof.
  split; [reflexivity|].
  pose proof (produced_frame_reaches_front [x0a; x0b] [] (Some 9) None
                Buffers.drained) as (_ & _ & H & _).
  cbv zeta in H. destruct H as (_ & _ & _ & H & _).
  apply H. reflexivity.
Defined.

Lemma rs_camera_new_has_slot_for_every_mode_witness :
  Scenario.depth_mode 30 ∈ subdevice_modes Scenario.info ∧
  0 ≤ subdevice (Scenario.depth_mode 30) ∧
  (Z.to_nat (subdevice (Scenario.depth_mode 30)) <
     length (subdevices (Scenario.new Scenario.model)))%nat.
Proof.
  assert (Scenario.depth_mode 30 ∈ subdevice_modes Scenario.info) as Hin
    by (apply elem_of_cons; right; apply elem_of_cons; by left).
  assert (0 ≤ subdevice (Scenario.depth_mode 30)) as Hle by (simpl; lia).
  split; [exact Hin|]. split; [exact Hle|].
  exact (proj1 (proj2 (proj2 (proj2 (proj2 (proj2
           (rs_camera_new_has_slot_for_every_mode (M := Scenario.model)))))))
           _ Hin Hle).
Defined.

Lemma enable_stream_last_call_wins_witness :
  let c := Scenario.new Scenario.model in
  first_handle c = None ∧
  stream_subdevices Scenario.info !!! Scenario.COLOR ≠ -1 ∧
  (Scenario.COLOR < length (requests c))%nat ∧
  requests (enable_stream (M := Scenario.model) Scenario.COLOR 640 480
              Scenario.RGB8 30 c).1 !! Scenario.COLOR =
    Some (mk_stream_request true 640 480 Scenario.RGB8 30).
Proof.
  assert (first_handle (Scenario.new Scenario.model) = None) as H1
    by reflexivity.
  assert (stream_subdevices Scenario.info !!! Scenario.COLOR ≠ -1) as H2
    by (vm_compute; discriminate).
  assert (Scenario.COLOR < length (requests (Scenario.new Scenario.model)))%nat
    as H3 by (vm_compute; lia).
  split; [exact H1|]. split; [exact H2|]. split; [exact H3|].
  exact (proj1 (proj2 (proj1 (enable_stream_last_call_wins (M := Scenario.model)
           (Scenario.new Scenario.model) Scenario.COLOR 640 480 Scenario.RGB8 30)
           H1 H2 H3))).
Defined.

Lemma enable_stream_preset_as_enable_stream_witness :
  let c := Scenario.new Scenario.model in
  let preset := (presets Scenario.info !!! Scenario.DEPTH) !!! 0%nat in
  enabled preset = true ∧
  first_handle c = None ∧
  enable_stream_preset (M := Scenario.model) Scenario.DEPTH 0%nat c =
    (with_requests (<[Scenario.DEPTH := preset]> (requests c)) c, Ok ()).
Proof.
  split; [reflexivity|]. split; [reflexivity|].
  apply (proj2 (enable_stream_preset_as_enable_stream (M := Scenario.model)
                  (Scenario.new Scenario.model) Scenario.DEPTH 0%nat eq_refl)).
  reflexivity.
Defined.




Lemma delivered_frame_is_consumed_witness :
  let c := Running.capturing in
  let polled := poll 1 [[(1%nat, Running.depth_frame)]] c in
  run_calls (M := Scenario.model) Running.start_calls
    (rs_camera_new (M := Scenario.model)) = Some c ∧
  streams c !! Scenario.DEPTH = Some (Some 1%nat) ∧
  subdevices c !! 1%nat = Some (Some Running.depth_handle) ∧
  cs_streams Running.depth_state !! 0%nat = Some 1%nat ∧
  unpacker (cs_mode Running.depth_state) Running.depth_frame !! 0%nat =
    Some Running.depth_frame ∧
  length Running.depth_frame =
    mode_size (M := Scenario.model) (mode (heap c !!! 1%nat)) ∧
  polled.1.1 = true ∧
  pixels (front (heap polled.1.2 !!! 1%nat)) = Running.depth_frame ∧
  (poll 1 [] polled.1.2).1.1 = false.
Proof.
  split; [vm_compute; reflexivity|]. split; [vm_compute; reflexivity|].
  split; [vm_compute; reflexivity|]. split; [reflexivity|].
  split; [reflexivity|]. split; [vm_compute; reflexivity|].
  pose proof (delivered_frame_is_consumed (M := Scenario.model)
                Running.start_calls Running.capturing Scenario.DEPTH 1%nat
                1%nat Running.depth_handle Running.depth_state 0%nat
                Running.depth_frame Running.depth_frame) as H.
  cbv zeta in H.
  destruct H as (_ & Htaken & _ & Hpixels & _ & Hnext);
    try (vm_compute; reflexivity).
  split; [exact Htaken|]. split; [|exact Hnext].
  apply Hpixels. vm_compute. reflexivity.
Defined.

Lemma first_handle_is_never_cleared_witness :
  let c := Scenario.configured Scenario.model in
  let c' := (stop_capture (configure_enabled_streams (M := Scenario.model) c).1).1 in
  is_Some (first_handle c) ∧
  run_calls (M := Scenario.model) Running.again_and_stop c = Some c' ∧
  open_subdevices c' = [] ∧
  first_handle c' = first_handle c ∧
  requests c' = requests c ∧
  ∀ s w h f fps,
    enable_stream (M := Scenario.model) s w h f fps c' =
      (c', Throw streams_cannot_be_reconfigured).
Proof.
  split; [by eexists|]. split; [vm_compute; reflexivity|].
  split; [vm_compute; reflexivity|].
  apply (first_handle_is_never_cleared (M := Scenario.model))
    with (ks := Running.again_and_stop); [by eexists|].
  vm_compute. reflexivity.
Defined.

Lemma calibration_is_kept_witness :
  let c := Scenario.configured Scenario.model in
  let c' := (start_capture (M := Scenario.model)
               (configure_enabled_streams (M := Scenario.model) c).1).1 in
  calibration_missing c = false ∧
  run_calls (M := Scenario.model) Running.again_and_start c = Some c' ∧
  calib c' = calib c ∧ calibration_fetches c' = calibration_fetches c.
Proof.
  split; [vm_compute; reflexivity|]. split; [vm_compute; reflexivity|].
  apply (calibration_is_kept (M := Scenario.model))
    with (ks := Running.again_and_start); vm_compute; reflexivity.
Defined.

Lemma start_capture_failure_starts_nothing_witness :
  let c := Scenario.requested_bad_depth Scenario.model in
  (start_capture (M := Scenario.model) c).2 = Throw (no_suitable_mode 1) ∧
  open_subdevices (start_capture (M := Scenario.model) c).1 = [0%nat] ∧
  first_handle c = None ∧
  start_capture (M := Scenario.model) c =
    configure_enabled_streams (M := Scenario.model) c ∧
  is_capturing (start_capture (M := Scenario.model) c).1 = is_capturing c ∧
  ∀ i sh, subdevices (start_capture (M := Scenario.model) c).1 !! i =
            Some (Some sh) →
          streaming sh = false.
Proof.
  split; [vm_compute; reflexivity|]. split; [vm_compute; reflexivity|].
  apply (start_capture_failure_starts_nothing (M := Scenario.model))
    with (e := no_suitable_mode 1).
  vm_compute. reflexivity.
Defined.


Lemma stop_capture_keeps_subdevices_open_witness :
  subdevices Running.capturing !! 1%nat = Some (Some Running.depth_handle) ∧
  open_subdevices (stop_capture Running.capturing).1 =
    open_subdevices Running.capturing ∧
  is_capturing (stop_capture Running.capturing).1 = false.
Proof.
  split; [vm_compute; reflexivity|].
  pose proof (stop_capture_keeps_subdevices_open Running.capturing)
    as (_ & Hcap & _ & Hopen & _).
  split; [exact Hopen|exact Hcap].
Defined.

Lemma configured_slots_are_the_enabled_covered_streams_witness :
  let c := Scenario.requested Scenario.model in
  first_handle c = None ∧
  @enforce_interstream_constraints _ _ Scenario.model (requests c) =
    Ok (requests c) ∧
  (configure_enabled_streams (M := Scenario.model) c).2 = Ok () ∧
  ((∃ id, streams (configure_enabled_streams (M := Scenario.model) c).1
            !! Scenario.DEPTH = Some (Some id)) ↔
   (Scenario.DEPTH < length (streams c))%nat ∧
   enabled (requests c !!! Scenario.DEPTH) = true ∧
   @covered _ _ Scenario.model (requests c) (length (subdevices c))
     Scenario.DEPTH).
Proof.
  split; [reflexivity|]. split; [reflexivity|].
  split; [vm_compute; reflexivity|].
  apply (configured_slots_are_the_enabled_covered_streams (M := Scenario.model));
    vm_compute; reflexivity.
Defined.

Lemma first_handle_is_lowest_open_subdevice_witness :
  let c := Scenario.requested_bad_depth Scenario.model in
  let c' := (configure_enabled_streams (M := Scenario.model) c).1 in
  first_handle c = None ∧
  first_handle c' = Some 0%nat ∧
  match first_handle c' with
  | None => open_subdevices c' = []
  | Some f => handles c' !! f = Some (Some f) ∧
              ∀ j, (j < f)%nat → handles c' !! j = Some None
  end.
Proof.
  split; [reflexivity|]. split; [vm_compute; reflexivity|].
  apply (first_handle_is_lowest_open_subdevice (M := Scenario.model)).
  reflexivity.
Defined.

Lemma configure_enabled_streams_transport_calls_witness :
  let c := Scenario.requested Scenario.model in
  let c' := (configure_enabled_streams (M := Scenario.model) c).1 in
  first_handle c = None ∧
  @enforce_interstream_constraints _ _ Scenario.model (requests c) =
    Ok (requests c) ∧
  (configure_enabled_streams (M := Scenario.model) c).2 = Ok () ∧
  hw_log c' =
    [ev_claim_subdevice 0; ev_set_mode 0 640 480 0 30;
     ev_claim_subdevice 1; ev_set_mode 1 640 480 0 30;
     ev_retrieve_calibration] ∧
  hw_log c' =
    hw_log c ++ (ev_stop_streaming <$> open_subdevices c) ++
    flat_map (@open_events _ _ Scenario.model (requests c))
      (seq 0 (length (subdevices c))) ++
    (if calibration_missing c && bool_decide (is_Some (first_handle c'))
     then [ev_retrieve_calibration] else []).
Proof.
  split; [reflexivity|]. split; [reflexivity|].
  split; [vm_compute; reflexivity|]. split; [vm_compute; reflexivity|].
  apply (configure_enabled_streams_transport_calls (M := Scenario.model));
    vm_compute; reflexivity.
Defined.

Lemma open_subdevices_are_started_and_stopped_witness :
  let c := Scenario.configured Scenario.model in
  is_Some (first_handle c) ∧
  open_subdevices c = [0%nat; 1%nat] ∧
  hw_log (start_capture (M := Scenario.model) c).1 =
    hw_log c ++ ev_set_stream_intent ::
                (ev_start_streaming <$> open_subdevices c).
Proof.
  split; [by eexists|]. split; [vm_compute; reflexivity|].
  apply (proj1 (open_subdevices_are_started_and_stopped (M := Scenario.model)
                  (Scenario.configured Scenario.model))).
  by eexists.
Defined.

Lemma wait_all_streams_waits_for_the_fastest_stream_witness :
  let c := Running.capturing in
  run_calls (M := Scenario.model) Running.start_calls
    (rs_camera_new (M := Scenario.model)) = Some c ∧
  is_capturing c = true ∧
  streams c !! Scenario.DEPTH = Some (Some 1%nat) ∧
  stream_fps c 1 = max_fps c ∧
  updated (heap c !!! 1%nat) = false ∧
  subdevices c !! 1%nat = Some (Some Running.depth_handle) ∧
  starved 1 Running.color_only ∧
  wait_all_streams Running.color_only c = None.
Proof.
  assert (starved 1 Running.color_only) as Hstarved.
  { intros b ev Hb Hev. unfold Running.color_only in Hb.
    repeat (apply elem_of_cons in Hb as [->|Hb]);
      try (by apply elem_of_nil in Hb);
      try (by apply elem_of_nil in Hev);
      by apply list_elem_of_singleton in Hev as ->. }
  split; [vm_compute; reflexivity|]. split; [vm_compute; reflexivity|].
  split; [vm_compute; reflexivity|]. split; [vm_compute; reflexivity|].
  split; [vm_compute; reflexivity|]. split; [vm_compute; reflexivity|].
  split; [exact Hstarved|].
  apply (wait_all_streams_waits_for_the_fastest_stream (M := Scenario.model)
           Running.start_calls Running.capturing Scenario.DEPTH 1%nat 1%nat
           Running.depth_handle Running.depth_state);
    try (vm_compute; reflexivity); [by left|exact Hstarved].
Defined.

